(** * Retrieval core of the UChicago MS-ADS assistant: [app/vector_search.py]

    A shallow embedding of the four functions of [vector_search.py]
    ([load_vectordb], [search_similar_chunks], [format_chunk_results],
    [inspect_metadata]) together with the fragment of the Python runtime
    they rely on, followed by the properties of the retrieval layer.

    Conventions of the embedding:
    - a Python [str] is a [string]; one [ascii] stands for one character,
      so the text handled here is ASCII text;
    - a Python [dict] is a [gmap], a Python [set] a [gset];
    - a Python [int] is a [Z]; [Optional[T]] is [option T];
    - a call into a library comes back with a [reply], a value or an
      error; code that prints or raises lives in the [Py] monad, which
      threads the [console] and ends in an [outcome]. *)

From Stdlib Require Import ZArith Ascii String.
From stdpp Require Import gmap strings list fin_maps pretty sorting.

Local Open Scope Z_scope.

(** ** The fragment of the Python runtime used by the module *)

Module Python.

(** *** Strings *)

(** The newline character, written ['\n'] in the source. *)
Definition nl : string := String (ascii_of_nat 10) EmptyString.

(** [len(s)]. *)
Definition len (s : string) : Z := Z.of_nat (String.length s).

(** [sep.join(parts)]. *)
Definition join (sep : string) (parts : list string) : string :=
  String.concat sep parts.

(** [s * n] for a string [s] and a count [n]. *)
Fixpoint repeat_str (s : string) (n : nat) : string :=
  match n with
  | O => EmptyString
  | S n' => s +:+ repeat_str s n'
  end.

(** [s[:n]]: a non-negative bound keeps the first [n] characters (all of
    them when [s] is shorter), a negative bound counts from the end. *)
Definition slice_to (n : Z) (s : string) : string :=
  let stop := if n <? 0 then Z.max 0 (len s + n) else n in
  String.substring 0 (Z.to_nat stop) s.

Definition is_lower (c : ascii) : bool :=
  (97 <=? nat_of_ascii c)%nat && (nat_of_ascii c <=? 122)%nat.

Definition is_upper (c : ascii) : bool :=
  (65 <=? nat_of_ascii c)%nat && (nat_of_ascii c <=? 90)%nat.

Definition is_cased (c : ascii) : bool := is_lower c || is_upper c.

Definition to_upper (c : ascii) : ascii :=
  if is_lower c then ascii_of_nat (nat_of_ascii c - 32) else c.

Definition to_lower (c : ascii) : ascii :=
  if is_upper c then ascii_of_nat (nat_of_ascii c + 32) else c.

(** [s.title()] on ASCII text: a character following a cased character
    is lowered, any other one is put in title case; [previous_is_cased]
    is the flag the interpreter carries along the string. Outside ASCII
    Python applies the Unicode case mappings, which may change the number
    of characters; such text is outside this model, and the characters
    above 127 are left as they are. *)
Fixpoint title_from (previous_is_cased : bool) (s : string) : string :=
  match s with
  | EmptyString => EmptyString
  | String c s' =>
      String (if previous_is_cased then to_lower c else to_upper c)
             (title_from (is_cased c) s')
  end.

Definition title (s : string) : string := title_from false s.

(** [s.replace(old, new)] for one-character [old] and [new]. *)
Fixpoint replace_char (old new : ascii) (s : string) : string :=
  match s with
  | EmptyString => EmptyString
  | String c s' =>
      String (if Ascii.eqb c old then new else c) (replace_char old new s')
  end.

(** [enumerate(xs, start)]. *)
Fixpoint enumerate {A : Type} (start : nat) (xs : list A) : list (nat * A) :=
  match xs with
  | [] => []
  | x :: xs' => (start, x) :: enumerate (S start) xs'
  end.

(** *** Exceptions and the console *)

(** The classes of errors, all derived from [Exception]. *)
Inductive error_class : Type :=
| ValueError
| RuntimeError
| AttributeError
| OtherError (name : string).

(** The exception classes that matter to [except Exception]: the error
    classes, and the two classes that derive from [BaseException] only. *)
Inductive exn_class : Type :=
| Error (cls : error_class)
| KeyboardInterrupt
| SystemExit.

Record exn : Type := Exn { exn_cls : exn_class; exn_msg : string }.

(** [isinstance(e, Exception)]. *)
Definition is_Exception (e : exn) : bool :=
  match exn_cls e with
  | Error _ => true
  | KeyboardInterrupt | SystemExit => false
  end.

(** [str(e)]. *)
Definition str_exn (e : exn) : string := exn_msg e.

Inductive outcome (A : Type) : Type :=
| Returned (a : A)
| Raised (e : exn).
Arguments Returned {A} a.
Arguments Raised {A} e.

(** The two text streams of the process, most recent line last. *)
Record console : Type := Console { stdout : list string; stderr : list string }.

Definition console0 : console := Console [] [].

(** A computation that may print and may raise. *)
Definition Py (A : Type) : Type := console -> outcome A * console.

Definition ret {A : Type} (a : A) : Py A := fun c => (Returned a, c).

Definition bind {A B : Type} (m : Py A) (k : A -> Py B) : Py B :=
  fun c =>
    match m c with
    | (Returned a, c') => k a c'
    | (Raised e, c') => (Raised e, c')
    end.

(** What a call into a library comes back with: a value, or an error of
    some class with its message. *)
Inductive reply (A : Type) : Type :=
| Reply (a : A)
| Fault (cls : error_class) (msg : string).
Arguments Reply {A} a.
Arguments Fault {A} cls msg.

(** [raise cls(msg)]. *)
Definition raise {A : Type} (cls : error_class) (msg : string) : Py A :=
  fun c => (Raised (Exn (Error cls) msg), c).

(** A call into a library: the value is returned, the error is raised;
    nothing is printed. *)
Definition call {A : Type} (r : reply A) : Py A :=
  match r with
  | Reply a => ret a
  | Fault cls msg => raise cls msg
  end.

(** [print(line)] writes to the standard output stream. *)
Definition print (line : string) : Py unit :=
  fun c => (Returned tt, Console (stdout c ++ [line]) (stderr c)).

(** [try: body except Exception as e: handler(e)]. *)
Definition try_except {A : Type} (body : Py A) (handler : exn -> Py A) : Py A :=
  fun c =>
    match body c with
    | (Returned a, c') => (Returned a, c')
    | (Raised e, c') =>
        if is_Exception e then handler e c' else (Raised e, c')
    end.

Module Notations.
Notation "x <- m ;; k" := (bind m (fun x => k))
  (at level 100, m at next level, right associativity).
Notation "m ;;; k" := (bind m (fun _ => k))
  (at level 100, right associativity).
End Notations.

End Python.

Import Python Python.Notations.

(** ** The data model: passages *)

(** A metadata value; the index stores strings (page type, categories,
    title, source) and integers (chunk index, chunk count). *)
Inductive value : Type :=
| VStr (s : string)
| VInt (z : Z).

#[global] Instance value_eq_dec : EqDecision value.
Proof. solve_decision. Defined.

#[global] Instance value_countable : Countable value.
Proof.
  refine (inj_countable'
    (fun v => match v with VStr s => inl s | VInt z => inr z end)
    (fun x => match x with inl s => VStr s | inr z => VInt z end) _).
  by intros [].
Defined.

(** [str(value)]. *)
Definition str (v : value) : string :=
  match v with
  | VStr s => s
  | VInt z => pretty z
  end.

(** [langchain.schema.Document]. *)
Record Document : Type := mkDocument {
  page_content : string;
  metadata : gmap string value
}.

#[global] Instance Document_eq_dec : EqDecision Document.
Proof. solve_decision. Defined.

(** The value of an entry of a filter dict: a scalar, which the index
    compares with the metadata value, or a list, which the index reads as
    the admissible values. *)
Inductive filter_value : Type :=
| Exactly (v : value)
| AnyOf (vs : list value).

#[global] Instance filter_value_eq_dec : EqDecision filter_value.
Proof. solve_decision. Defined.

(** ** The collaborators: embedding provider and vector index *)

(** [langchain_openai.OpenAIEmbeddings]: the embedding function, bound to
    a credential and a model name. *)
Record OpenAIEmbeddings : Type := mkOpenAIEmbeddings {
  emb_api_key : string;
  emb_model : string
}.

(** [langchain_community.vectorstores.FAISS]: a loaded index. The corpus
    it was built from is [docstore]; [similarity] is the score the index
    gives a passage for a query (only the order of scores is used, so the
    score is kept as an integer); [similarity_search] is the method
    [similarity_search(query, k, filter)], which returns passages or
    fails with an error. *)
Record FAISS : Type := mkFAISS {
  embedding_function : OpenAIEmbeddings;
  docstore : list Document;
  similarity : string -> Document -> Z;
  similarity_search :
    string -> Z -> option (gmap string filter_value) -> reply (list Document)
}.

(** What the module reaches outside of itself: the credential read from
    the process environment at import time, the constructor of the
    embedding function, the file system and the index deserializer
    [FAISS.load_local(folder_path, embeddings,
    allow_dangerous_deserialization)]. *)
Record Env : Type := mkEnv {
  getenv : string -> option string;
  new_OpenAIEmbeddings : string -> string -> reply OpenAIEmbeddings;
  path_exists : string -> bool;
  FAISS_load_local : string -> OpenAIEmbeddings -> bool -> reply FAISS
}.

(** The test the index applies to one entry of a filter:
    [metadata.get(field) == v] for a scalar, [metadata.get(field) in vs]
    for a list. *)
Definition entry_holds (doc : Document) (field : string) (fv : filter_value)
  : Prop :=
  match fv with
  | Exactly v => metadata doc !! field = Some v
  | AnyOf vs =>
      match metadata doc !! field with
      | Some v => v ∈ vs
      | None => False
      end
  end.

#[global] Instance entry_holds_dec doc field fv : Decision (entry_holds doc field fv).
Proof.
  destruct fv as [v|vs]; simpl; [apply _ |].
  destruct (metadata doc !! field); apply _.
Defined.

(** A passage satisfies a filter when the test holds for every entry. *)
Definition satisfies (filter : gmap string filter_value) (doc : Document) : Prop :=
  map_Forall (entry_holds doc) filter.

#[global] Instance satisfies_dec filter doc : Decision (satisfies filter doc).
Proof. unfold satisfies. apply _. Defined.

(** Ranking order of a result list: the better score comes first. *)
Definition ranks_before (score : Document -> Z) : relation Document :=
  fun a b => score b <= score a.

#[global] Instance ranks_before_dec score a b : Decision (ranks_before score a b).
Proof. unfold ranks_before. apply _. Defined.

(** The contract of [similarity_search] on a well-formed index: for a
    positive result count at most [k] passages, all stored in the index,
    best score first; all satisfying the filter, as the index reads it,
    when one is given. *)
Record valid_index (vs : FAISS) : Prop := {
  search_at_most_k : forall query k filter docs,
    0 < k ->
    similarity_search vs query k filter = Reply docs ->
    Z.of_nat (length docs) <= k;
  search_from_docstore : forall query k filter docs,
    0 < k ->
    similarity_search vs query k filter = Reply docs ->
    forall doc, doc ∈ docs -> doc ∈ docstore vs;
  search_ranked : forall query k filter docs,
    0 < k ->
    similarity_search vs query k filter = Reply docs ->
    Sorted (ranks_before (similarity vs query)) docs;
  search_filtered : forall query k filter docs,
    similarity_search vs query k (Some filter) = Reply docs ->
    Forall (satisfies filter) docs
}.

Module VectorSearch.

(** ** Module start-up: the credential *)

(** [openai_api_key = os.getenv('OPENAI_API_KEY')], and the import fails
    when the key is missing or empty. *)
Definition import_module (env : Env) : Py string :=
  match getenv env "OPENAI_API_KEY" with
  | Some openai_api_key =>
      if String.eqb openai_api_key EmptyString
      then raise ValueError "OpenAI API key not found in environment variables"
      else ret openai_api_key
  | None =>
      raise ValueError "OpenAI API key not found in environment variables"
  end.

(** ** [load_vectordb] *)

Definition default_model : string := "text-embedding-3-small".

(** [openai_api_key] is the module-level variable set at import time. *)
Definition load_vectordb (env : Env) (openai_api_key : string)
    (load_path : string) (model : string) : Py (option FAISS) :=
  try_except
    (embeddings <- call (new_OpenAIEmbeddings env openai_api_key model) ;;
     vectorstore <- call (FAISS_load_local env load_path embeddings true) ;;
     ret (Some vectorstore))
    (fun e =>
       print ("Error loading vector database: " +:+ str_exn e) ;;;
       ret None).

(** ** [search_similar_chunks] *)

(** [vectorstore.similarity_search(...)] on the handle the caller holds:
    [load_vectordb] hands out [None] after a failed load, and the
    attribute access on [None] raises. *)
Definition call_similarity_search (vectorstore : option FAISS)
    (query : string) (k : Z) (filter : option (gmap string filter_value))
  : reply (list Document) :=
  match vectorstore with
  | Some vs => similarity_search vs query k filter
  | None =>
      Fault AttributeError
            "'NoneType' object has no attribute 'similarity_search'"
  end.

(** Truth value of an [Optional[Dict]]: [None] and the empty dict are
    false. *)
Definition truthy (filter_dict : option (gmap string filter_value)) : bool :=
  match filter_dict with
  | Some d => negb (bool_decide (d = ∅))
  | None => false
  end.

Definition default_k : Z := 5.

Definition search_similar_chunks (vectorstore : option FAISS)
    (query : string) (k : Z) (filter_dict : option (gmap string filter_value))
  : Py (list Document) :=
  try_except
    (similar_docs <-
       (if truthy filter_dict
        then call (call_similarity_search vectorstore query k filter_dict)
        else call (call_similarity_search vectorstore query k None)) ;;
     ret similar_docs)
    (fun e =>
       print ("Error during similarity search: " +:+ str_exn e) ;;;
       ret []).

(** ** [format_chunk_results] *)

Definition no_results : string := "No results found.".

Definition default_fields : list string :=
  [ "page_type"; "primary_category"; "subcategory"; "title";
    "chunk_index"; "total_chunks"; "source" ].

(** ["-" * 10]. *)
Definition rule : string := repeat_str "-" 10.

(** [field.replace('_', ' ').title()]. *)
Definition display_field (field : string) : string :=
  title (replace_char "_" " " field).

(** The line [f"{display_field}: {value}"]. *)
Definition metadata_line (field : string) (v : value) : string :=
  display_field field +:+ ": " +:+ str v.

(** The inner loop over [metadata_fields]: a line is appended for each
    field found in the passage's metadata. *)
Definition metadata_lines (metadata_fields : list string) (doc : Document)
  : list string :=
  fold_left
    (fun lines field =>
       match metadata doc !! field with
       | Some v => lines ++ [metadata_line field v]
       | None => lines
       end)
    metadata_fields [].

(** The content shown for a passage: truncated when [max_content_length]
    is truthy and shorter than the content. *)
Definition shown_content (max_content_length : option Z) (content : string)
  : string :=
  match max_content_length with
  | Some n =>
      if negb (n =? 0) && (len content >? n)
      then slice_to n content +:+ "..."
      else content
  | None => content
  end.

(** One iteration of the loop over [enumerate(documents, 1)]. *)
Definition append_chunk (metadata_fields : list string) (include_content : bool)
    (max_content_length : option Z)
    (output_parts : list string) (item : nat * Document) : list string :=
  let '(i, doc) := item in
  let output_parts := output_parts ++ [nl +:+ "Chunk " +:+ pretty i +:+ ":"] in
  let output_parts := output_parts ++ [rule] in
  let output_parts :=
    output_parts ++ [join nl (metadata_lines metadata_fields doc)] in
  if include_content then
    let output_parts := output_parts ++ [nl +:+ "Content:"] in
    let output_parts := output_parts ++ [rule] in
    let content := shown_content max_content_length (page_content doc) in
    let output_parts := output_parts ++ [content] in
    output_parts ++ [rule]
  else output_parts.

(** [metadata_fields or default_fields]: [None] and the empty list are
    false. *)
Definition or_default_fields (metadata_fields : option (list string))
  : list string :=
  match metadata_fields with
  | None | Some [] => default_fields
  | Some fields => fields
  end.

(** The list [output_parts] once the loop over the passages is over. *)
Definition output_parts (documents : list Document)
    (metadata_fields : option (list string)) (include_content : bool)
    (max_content_length : option Z) : list string :=
  let metadata_fields := or_default_fields metadata_fields in
  let output_parts :=
    ["Found " +:+ pretty (length documents) +:+ " relevant chunks:" +:+ nl] in
  fold_left
    (append_chunk metadata_fields include_content max_content_length)
    (enumerate 1 documents) output_parts.

Definition format_chunk_results (documents : list Document)
    (metadata_fields : option (list string)) (include_content : bool)
    (max_content_length : option Z) : string :=
  match documents with
  | [] => no_results
  | _ =>
      join nl
        (output_parts documents metadata_fields include_content
                      max_content_length)
  end.



(** ** [inspect_metadata] *)

(** The body of the inner loop: the field gets an empty set when it is
    new, then the value is added to the set stored for the field. *)
Definition record_value (metadata_summary : gmap string (gset value))
    (item : string * value) : gmap string (gset value) :=
  let '(key, v) := item in
  let metadata_summary :=
    match metadata_summary !! key with
    | None => <[key := ∅]> metadata_summary
    | Some _ => metadata_summary
    end in
  alter (fun values => values ∪ {[v]}) key metadata_summary.

(** The body of the outer loop, over [doc.metadata.items()]. *)
Definition record_document (metadata_summary : gmap string (gset value))
    (doc : Document) : gmap string (gset value) :=
  fold_left record_value (map_to_list (metadata doc)) metadata_summary.

Definition default_sample_query : string := "sample".
Definition default_sample_size : Z := 100.

Definition inspect_metadata (vectorstore : option FAISS)
    (sample_query : string) (sample_size : Z)
  : Py (gmap string (gset value)) :=
  let metadata_summary : gmap string (gset value) := ∅ in
  sample_docs <-
    call (call_similarity_search vectorstore sample_query sample_size None) ;;
  ret (fold_left record_document sample_docs metadata_summary).

End VectorSearch.

Import VectorSearch.

(** ** Vocabulary of the properties *)

(** The position, in [output_parts], of the parts of the passage of rank
    [i] (counted from 0): the header comes first, then each passage takes
    [chunk_width] parts, of which the third is the metadata block and the
    sixth the content. *)
Definition chunk_width (include_content : bool) : nat :=
  if include_content then 7%nat else 3%nat.

Definition metadata_position (include_content : bool) (i : nat) : nat :=
  S (chunk_width include_content * i + 2).

Definition content_position (i : nat) : nat := S (7 * i + 5).

(** The lines expected for a passage: one per listed field the passage
    has, in the order of the list. *)
Definition lines_of_present_fields (fields : list string) (doc : Document)
  : list string :=
  omap (fun field => metadata_line field <$> metadata doc !! field) fields.

(** [shown] is at most [N] leading characters of [content] followed by the
    ellipsis marker. *)
Definition truncated_to (N : Z) (content shown : string) : Prop :=
  exists kept,
    shown = kept +:+ "..." /\ len kept <= N /\ String.prefix kept content = true.

(** Scores do not increase along a result list. *)
Definition non_increasing (score : Document -> Z) (docs : list Document) : Prop :=
  forall i j di dj,
    (i <= j)%nat -> docs !! i = Some di -> docs !! j = Some dj ->
    score dj <= score di.

(** The filter argument that reaches the index. *)
Definition passed_filter (filter_dict : option (gmap string filter_value))
  : option (gmap string filter_value) :=
  if truthy filter_dict then filter_dict else None.

(** What a call of [search_similar_chunks] comes to once the lookup
    has returned or failed. *)
Definition after_lookup (lookup : reply (list Document)) (c : console)
  : outcome (list Document) * console :=
  match lookup with
  | Reply docs => (Returned docs, c)
  | Fault cls msg =>
      (Returned [],
       Console (stdout c ++ ["Error during similarity search: " +:+ msg])
               (stderr c))
  end.

(** The ways a load fails with an error of class [cls] and message
    [msg]: the embedding function cannot be configured, or the persisted
    index cannot be read. *)
Definition load_fails_with (env : Env) (openai_api_key load_path model : string)
    (cls : error_class) (msg : string) : Prop :=
  new_OpenAIEmbeddings env openai_api_key model = Fault cls msg
  \/ exists embeddings,
       new_OpenAIEmbeddings env openai_api_key model = Reply embeddings
       /\ FAISS_load_local env load_path embeddings true = Fault cls msg.

(** The contract of the deserializer: reading from a path that does not
    exist fails. *)
Definition valid_env (env : Env) : Prop :=
  forall path embeddings flag,
    path_exists env path = false ->
    exists cls msg, FAISS_load_local env path embeddings flag = Fault cls msg.

(** A field and a value seen together on one of the passages. *)
Definition observed (docs : list Document) (key : string) (v : value) : Prop :=
  exists doc, doc ∈ docs /\ metadata doc !! key = Some v.

(** A value listed for a field in a summary. *)
Definition recorded (summary : gmap string (gset value)) (key : string)
    (v : value) : Prop :=
  exists values, summary !! key = Some values /\ v ∈ values.

(** ** A brute-force index

    An index that scans its whole corpus: it keeps the passages that
    satisfy the filter, ranks them by score and hands out the first [k].
    It is the plain reading of what the index library does and shows that
    [valid_index] has inhabitants over any corpus. *)

Module BruteForce.

Definition eligible (corpus : list Document)
    (filter_dict : option (gmap string filter_value)) : list Document :=
  match filter_dict with
  | Some d => filter (satisfies d) corpus
  | None => corpus
  end.

Definition search (corpus : list Document) (score : string -> Document -> Z)
    (query : string) (k : Z) (filter_dict : option (gmap string filter_value))
  : reply (list Document) :=
  Reply
    (take (Z.to_nat k)
          (merge_sort (ranks_before (score query)) (eligible corpus filter_dict))).

Definition index (embeddings : OpenAIEmbeddings) (corpus : list Document)
    (score : string -> Document -> Z) : FAISS :=
  mkFAISS embeddings corpus score (search corpus score).

End BruteForce.

(** ** Sample data *)

Module Sample.

Definition capstone : Document :=
  mkDocument "The capstone project spans two quarters."
    (<["title" := VStr "Capstone"]>
       (<["page_type" := VStr "course"]>
          (<["chunk_index" := VInt 3]>
             (<["source" := VStr "https://example.edu/capstone"]> ∅)))).

Definition admissions : Document :=
  mkDocument "Applications open in September."
    (<["title" := VStr "Admissions"]>
       (<["page_type" := VStr "info"]>
          (<["chunk_index" := VInt 0]> ∅))).

Definition faculty : Document :=
  mkDocument "Meet the instructors."
    (<["page_type" := VStr "info"]> (<["author" := VStr "staff"]> ∅)).

Definition corpus : list Document := [capstone; admissions; faculty].

(** A score that prefers long passages. *)
Definition score (query : string) (doc : Document) : Z :=
  len (page_content doc) + len query.

Definition embeddings : OpenAIEmbeddings :=
  mkOpenAIEmbeddings "sk-test" default_model.

Definition db : FAISS := BruteForce.index embeddings corpus score.

(** An index whose lookups always fail, as when the embedding service
    cannot be reached. *)
Definition unreachable : FAISS :=
  mkFAISS embeddings corpus score
    (fun _ _ _ => Fault (OtherError "APIConnectionError") "Connection error.").

(** An environment with one persisted index, at [data/vectordb]. *)
Definition env : Env :=
  mkEnv
    (fun name => if String.eqb name "OPENAI_API_KEY" then Some "sk-test" else None)
    (fun key model => Reply (mkOpenAIEmbeddings key model))
    (fun path => String.eqb path "data/vectordb")
    (fun path emb _ =>
       if String.eqb path "data/vectordb"
       then Reply (BruteForce.index emb corpus score)
       else Fault RuntimeError ("could not open " +:+ path +:+ "/index.faiss")).

End Sample.

(** ** The caller: [setup] of [main_streamlit.py] *)

Module OsPath.

Definition starts_with_sep (s : string) : bool :=
  match s with
  | String c _ => Ascii.eqb c "/"
  | EmptyString => false
  end.

Fixpoint ends_with_sep (s : string) : bool :=
  match s with
  | EmptyString => false
  | String c EmptyString => Ascii.eqb c "/"
  | String _ s' => ends_with_sep s'
  end.

(** One step of [posixpath.join]: an absolute component restarts the
    path, otherwise it is appended after a separator unless the path is
    empty or already ends with one. *)
Definition join_step (path b : string) : string :=
  if starts_with_sep b then b
  else if String.eqb path EmptyString || ends_with_sep path then path +:+ b
  else path +:+ "/" +:+ b.

(** [os.path.join(a, *p)]. *)
Definition join (a : string) (p : list string) : string :=
  fold_left join_step p a.

End OsPath.

Module MainStreamlit.

(** [setup()]. The environment is the one [load_dotenv()] leaves;
    [vector_search_key] is the module-level credential of
    [vector_search], which [load_vectordb] reads; [base_dir] is
    [os.path.dirname(__file__)]; [create_chat_chain] comes from
    [chat_utils] and is taken as it is. *)
Definition setup {Chain : Type} (env : Env) (vector_search_key : string)
    (base_dir : string) (create_chat_chain : string -> reply Chain)
  : Py (option FAISS * Chain) :=
  match getenv env "OPENAI_API_KEY" with
  | Some openai_api_key =>
      if String.eqb openai_api_key EmptyString
      then raise ValueError "OpenAI API key not found in environment variables"
      else
        let vectordb_path :=
          OsPath.join base_dir ["data"; "data"; "vectordb"] in
        vectordb <-
          load_vectordb env vector_search_key vectordb_path default_model ;;
        chain <- call (create_chat_chain openai_api_key) ;;
        ret (vectordb, chain)
  | None =>
      raise ValueError "OpenAI API key not found in environment variables"
  end.

End MainStreamlit.

(** Two result lists hold the same passages, whatever their order and
    however often each passage occurs. *)
Definition same_passages (docs1 docs2 : list Document) : Prop :=
  forall doc, doc ∈ docs1 <-> doc ∈ docs2.

(** Every field listed in a summary has a value listed for it. *)
Definition inhabited_fields (summary : gmap string (gset value)) : Prop :=
  forall key, is_Some (summary !! key) -> exists v, recorded summary key v.

(** Exact equality between the metadata value of a field and the value
    of a filter entry. A list is equal to no scalar. *)
Definition equals_filter_value (doc : Document) (field : string)
    (fv : filter_value) : Prop :=
  exists v, metadata doc !! field = Some v /\ fv = Exactly v.

(** Text made of ASCII characters only. *)
Fixpoint is_ascii_text (s : string) : bool :=
  match s with
  | EmptyString => true
  | String c s' => (nat_of_ascii c <? 128)%nat && is_ascii_text s'
  end.

(** * Properties *)

(** ** Strings *)

Section Strings.

Lemma length_substring_0 (n : nat) (s : string) :
  (n <= String.length s)%nat -> String.length (String.substring 0 n s) = n.
Proof.
  revert s. induction n as [|n IH]; intros [|c s] Hn; simpl in *; try lia.
  rewrite IH; lia.
Qed.

Lemma prefix_substring_0 (n : nat) (s : string) :
  String.prefix (String.substring 0 n s) s = true.
Proof.
  revert s. induction n as [|n IH]; intros [|c s]; simpl; try reflexivity.
  destruct (Ascii.ascii_dec c c) as [_|Hne]; [apply IH | congruence].
Qed.

Lemma slice_to_nonneg (n : Z) (s : string) :
  0 <= n -> slice_to n s = String.substring 0 (Z.to_nat n) s.
Proof.
  intros Hn. unfold slice_to.
  destruct (Z.ltb_spec n 0); [lia | reflexivity].
Qed.

Lemma len_slice_to (n : Z) (s : string) :
  0 <= n <= len s -> len (slice_to n s) = n.
Proof.
  intros [Hn Hle]. rewrite slice_to_nonneg by done.
  unfold len in *. rewrite length_substring_0; lia.
Qed.

Lemma length_append (s t : string) :
  String.length (s +:+ t) = (String.length s + String.length t)%nat.
Proof.
  induction s as [|c s IH]; [done |].
  change (String c s +:+ t) with (String c (s +:+ t)).
  simpl. by rewrite IH.
Qed.

End Strings.

(** ** The shape of [output_parts] *)

Section Formatter.

Variables (metadata_fields : list string) (include_content : bool)
          (max_content_length : option Z).

Let step := append_chunk metadata_fields include_content max_content_length.

(** The parts one passage contributes. *)
Lemma append_chunk_app (output_parts : list string) (item : nat * Document) :
  step output_parts item = output_parts ++ step [] item.
Proof.
  subst step. destruct item as [i doc]. unfold append_chunk.
  destruct include_content; simpl; by rewrite <- ?app_assoc.
Qed.

Lemma fold_append_chunk (items : list (nat * Document)) (output_parts : list string) :
  fold_left step items output_parts
  = output_parts ++ flat_map (step []) items.
Proof.
  revert output_parts. induction items as [|item items IH]; intros acc; simpl.
  - by rewrite app_nil_r.
  - rewrite IH, (append_chunk_app acc item). by rewrite <- app_assoc.
Qed.

Lemma length_chunk (item : nat * Document) :
  length (step [] item) = chunk_width include_content.
Proof.
  subst step. destruct item as [i doc]. unfold append_chunk, chunk_width.
  by destruct include_content.
Qed.

End Formatter.

Lemma lookup_flat_map_uniform {A B : Type} (g : A -> list B) (w : nat)
    (items : list A) (i j : nat) (x : A) :
  (forall y, length (g y) = w) ->
  items !! i = Some x -> (j < w)%nat ->
  flat_map g items !! (w * i + j)%nat = g x !! j.
Proof.
  intros Hw. revert i. induction items as [|y items IH]; intros i Hi Hj.
  - done.
  - simpl. destruct i as [|i]; simpl in Hi.
    + injection Hi as ->. rewrite Nat.mul_0_r. simpl.
      apply lookup_app_l. by rewrite Hw.
    + rewrite lookup_app_r by (rewrite Hw; lia).
      rewrite Hw. replace (w * S i + j - w)%nat with (w * i + j)%nat by lia.
      by apply IH.
Qed.

Lemma lookup_enumerate {A : Type} (start : nat) (xs : list A) (i : nat) (x : A) :
  xs !! i = Some x -> enumerate start xs !! i = Some ((start + i)%nat, x).
Proof.
  revert start i. induction xs as [|y xs IH]; intros start [|i] Hi; simpl in *;
    try done.
  - injection Hi as ->. by rewrite Nat.add_0_r.
  - rewrite (IH (S start) i Hi). f_equal. f_equal. lia.
Qed.

Lemma output_parts_lookup (documents : list Document)
    (metadata_fields : option (list string)) (include_content : bool)
    (max_content_length : option Z) (i j : nat) (doc : Document) :
  documents !! i = Some doc ->
  (j < chunk_width include_content)%nat ->
  output_parts documents metadata_fields include_content max_content_length
    !! S (chunk_width include_content * i + j)
  = append_chunk (or_default_fields metadata_fields) include_content
      max_content_length [] (S i, doc) !! j.
Proof.
  intros Hi Hj. unfold output_parts.
  rewrite fold_append_chunk. simpl.
  rewrite (lookup_flat_map_uniform _ (chunk_width include_content) _ i j (S i, doc));
    [done | apply length_chunk | | done].
  by rewrite (lookup_enumerate 1 documents i doc Hi).
Qed.

Lemma metadata_lines_omap (fields : list string) (doc : Document) :
  metadata_lines fields doc = lines_of_present_fields fields doc.
Proof.
  unfold metadata_lines, lines_of_present_fields.
  enough (forall acc,
    fold_left
      (fun lines field =>
         match metadata doc !! field with
         | Some v => lines ++ [metadata_line field v]
         | None => lines
         end) fields acc
    = acc ++ omap (fun field => metadata_line field <$> metadata doc !! field) fields)
    as H by apply (H []).
  induction fields as [|field fields IH]; intros acc; simpl.
  - by rewrite app_nil_r.
  - rewrite IH. destruct (metadata doc !! field) as [v|]; simpl.
    + by rewrite <- app_assoc.
    + done.
Qed.

Lemma format_is_join (documents : list Document)
    (metadata_fields : option (list string)) (include_content : bool)
    (max_content_length : option Z) :
  documents <> [] ->
  format_chunk_results documents metadata_fields include_content
    max_content_length
  = join nl (output_parts documents metadata_fields include_content
               max_content_length).
Proof. by destruct documents. Qed.

Lemma lookup_not_nil {A : Type} (xs : list A) (i : nat) (x : A) :
  xs !! i = Some x -> xs <> [].
Proof. by destruct xs. Qed.

(** Where the metadata block and the content of a passage end up. *)
Lemma output_parts_metadata (documents : list Document)
    (metadata_fields : option (list string)) (include_content : bool)
    (max_content_length : option Z) (i : nat) (doc : Document) :
  documents !! i = Some doc ->
  output_parts documents metadata_fields include_content max_content_length
    !! metadata_position include_content i
  = Some (join nl (metadata_lines (or_default_fields metadata_fields) doc)).
Proof.
  intros Hi. unfold metadata_position.
  rewrite (output_parts_lookup _ _ _ _ i 2 doc Hi)
    by (destruct include_content; simpl; lia).
  by destruct include_content.
Qed.

Lemma output_parts_content (documents : list Document)
    (metadata_fields : option (list string))
    (max_content_length : option Z) (i : nat) (doc : Document) :
  documents !! i = Some doc ->
  output_parts documents metadata_fields true max_content_length
    !! content_position i
  = Some (shown_content max_content_length (page_content doc)).
Proof.
  intros Hi. unfold content_position.
  by rewrite (output_parts_lookup _ _ true _ i 5 doc Hi) by (simpl; lia).
Qed.

(** Without [include_content] a passage contributes its header, the rule
    and the metadata block, and nothing else. *)
Lemma output_parts_length (documents : list Document)
    (metadata_fields : option (list string)) (include_content : bool)
    (max_content_length : option Z) :
  length (output_parts documents metadata_fields include_content
            max_content_length)
  = S (chunk_width include_content * length documents).
Proof.
  unfold output_parts. rewrite fold_append_chunk. simpl. f_equal.
  generalize 1%nat. induction documents as [|doc documents IH]; intros start.
  - simpl. lia.
  - cbn [enumerate flat_map]. rewrite length_app, length_chunk, IH.
    cbn [length]. lia.
Qed.

(** A field the passage lacks can be dropped from the list without any
    effect on the lines of the other fields. *)
Lemma metadata_lines_skip_absent (before after : list string) (field : string)
    (doc : Document) :
  metadata doc !! field = None ->
  metadata_lines (before ++ field :: after) doc
  = metadata_lines (before ++ after) doc.
Proof.
  intros Habsent. rewrite !metadata_lines_omap.
  unfold lines_of_present_fields. rewrite !omap_app. simpl.
  by rewrite Habsent.
Qed.

(** A field the passage has contributes exactly its line, between the
    lines of the fields listed before it and those listed after it. *)
Lemma metadata_lines_present (before after : list string) (field : string)
    (v : value) (doc : Document) :
  metadata doc !! field = Some v ->
  metadata_lines (before ++ field :: after) doc
  = metadata_lines before doc ++ metadata_line field v :: metadata_lines after doc.
Proof.
  intros Hpresent. rewrite !metadata_lines_omap.
  unfold lines_of_present_fields. rewrite omap_app. simpl.
  by rewrite Hpresent.
Qed.

(** The metadata block of a passage that has one of the listed fields
    is not empty. *)
Lemma metadata_block_nonempty (fields : list string) (doc : Document) :
  (exists field, field ∈ fields /\ is_Some (metadata doc !! field)) ->
  join nl (lines_of_present_fields fields doc) <> EmptyString.
Proof.
  intros (field & Hin & v & Hv).
  assert (exists line rest,
            lines_of_present_fields fields doc = line :: rest
            /\ (0 < String.length line)%nat) as (line & rest & -> & Hline).
  { unfold lines_of_present_fields.
    induction fields as [|f fields IH]; [by apply elem_of_nil in Hin |].
    cbn [omap list_omap]. destruct (metadata doc !! f) as [w|] eqn:Hf.
    - eexists _, _. split; [reflexivity |].
      unfold metadata_line. rewrite !length_append. simpl. lia.
    - apply IH. apply elem_of_cons in Hin as [-> | Hin]; [congruence | done]. }
  unfold join. intros Hempty. apply (f_equal String.length) in Hempty.
  destruct rest as [|line' rest]; cbn [String.concat] in Hempty.
  - simpl in Hempty. lia.
  - rewrite !length_append in Hempty. simpl in Hempty. lia.
Qed.

(** ** The formatter: sentinel, fields, truncation *)

(** C6: whatever the other parameters, formatting an empty passage
    sequence yields the fixed sentinel "No results found.", which is not
    an empty report. *)
Theorem format_empty_is_sentinel (metadata_fields : option (list string))
    (include_content : bool) (max_content_length : option Z) :
  format_chunk_results [] metadata_fields include_content max_content_length
  = "No results found."
  /\ format_chunk_results [] metadata_fields include_content max_content_length
     <> EmptyString.
Proof. split; [reflexivity | discriminate]. Qed.

(** C7 as stated fails on the empty list of fields: the list names no
    field, yet the passage is rendered with the lines of the default
    fields it has. *)
Lemma empty_field_list_still_renders :
  output_parts [Sample.capstone] (Some []) true None !! metadata_position true 0
  <> Some (join nl (lines_of_present_fields [] Sample.capstone)).
Proof. vm_compute. discriminate. Qed.

(** C7, amended: for every passage and every non-empty ordered list of
    field names, the metadata block of the passage is made of one line
    per listed field the passage has, in the order of the list; a listed
    field the passage lacks gets no line. *)
Theorem format_renders_present_fields (documents : list Document)
    (fields : list string) (include_content : bool)
    (max_content_length : option Z) (i : nat) (doc : Document) :
  fields <> [] ->
  documents !! i = Some doc ->
  format_chunk_results documents (Some fields) include_content
    max_content_length
  = join nl (output_parts documents (Some fields) include_content
               max_content_length)
  /\ output_parts documents (Some fields) include_content max_content_length
       !! metadata_position include_content i
     = Some (join nl (lines_of_present_fields fields doc)).
Proof.
  intros Hfields Hi. split.
  - apply format_is_join. by eapply lookup_not_nil.
  - rewrite (output_parts_metadata _ _ _ _ i doc Hi), metadata_lines_omap.
    by destruct fields.
Qed.

Lemma format_renders_present_fields_witness :
  ["chunk_index"; "author"; "title"] <> []
  /\ Sample.corpus !! 0%nat = Some Sample.capstone
  /\ output_parts Sample.corpus (Some ["chunk_index"; "author"; "title"])
       false None !! 3%nat
     = Some ("Chunk Index: 3" +:+ nl +:+ "Title: Capstone").
Proof.
  split; [discriminate |]. split; [reflexivity |].
  apply (format_renders_present_fields Sample.corpus
           ["chunk_index"; "author"; "title"] false None 0 Sample.capstone).
  - discriminate.
  - reflexivity.
Defined.

(** The three regimes of [shown_content]. *)
Lemma shown_content_unset (content : string) : shown_content None content = content.
Proof. reflexivity. Qed.

Lemma shown_content_fits (N : Z) (content : string) :
  N = 0 \/ len content <= N -> shown_content (Some N) content = content.
Proof.
  intros [-> | Hfits]; unfold shown_content; [done |].
  destruct (Z.gtb_spec (len content) N); [lia |].
  by rewrite andb_false_r.
Qed.

Lemma shown_content_exceeds (N : Z) (content : string) :
  N <> 0 -> len content > N ->
  shown_content (Some N) content = slice_to N content +:+ "...".
Proof.
  intros Hset Hlong. unfold shown_content.
  destruct (Z.eqb_spec N 0); [done |].
  destruct (Z.gtb_spec (len content) N); [done | lia].
Qed.

(** A negative limit is truthy and shorter than any content: the slice
    then drops characters from the end. *)
Example shown_content_negative :
  shown_content (Some (-2)) "abcdef" = "abcd...".
Proof. reflexivity. Qed.

(** With the limit set to 0 the content exceeds the limit, yet it is
    emitted in full instead of being cut down to no character and the
    ellipsis marker. *)
Lemma zero_limit_is_not_enforced :
  len (page_content Sample.admissions) > 0
  /\ ~ (exists shown,
          output_parts [Sample.admissions] None true (Some 0)
            !! content_position 0 = Some shown
          /\ truncated_to 0 (page_content Sample.admissions) shown).
Proof.
  split; [reflexivity |].
  intros (shown & Hshown & kept & Heq & Hlen & _).
  vm_compute in Hshown. injection Hshown as <-.
  destruct kept as [|c kept]; [discriminate Heq |].
  unfold len in Hlen. simpl in Hlen. lia.
Qed.

(** C5, at a limit of 0, which is a set limit that any text exceeds:
    the report carries the whole content of the passage and no ellipsis
    marker, and is the very report obtained without limit, where the
    claim, like the docstring ("None for full content"), asks for no
    character of the content and the marker; a limit of 1 is enforced. *)
Theorem zero_limit_emits_full_content :
  len (page_content Sample.admissions) > 0
  /\ format_chunk_results [Sample.admissions] None true (Some 0)
     = join nl
         ["Found 1 relevant chunks:" +:+ nl;
          nl +:+ "Chunk 1:";
          "----------";
          join nl ["Page Type: info"; "Title: Admissions"; "Chunk Index: 0"];
          nl +:+ "Content:";
          "----------";
          "Applications open in September.";
          "----------"]
  /\ format_chunk_results [Sample.admissions] None true (Some 0)
     = format_chunk_results [Sample.admissions] None true None
  /\ format_chunk_results [Sample.admissions] None true (Some 1)
     = join nl
         ["Found 1 relevant chunks:" +:+ nl;
          nl +:+ "Chunk 1:";
          "----------";
          join nl ["Page Type: info"; "Title: Admissions"; "Chunk Index: 0"];
          nl +:+ "Content:";
          "----------";
          "A...";
          "----------"].
Proof. repeat split; vm_compute; reflexivity. Qed.

(** With a positive limit [N], a passage whose content is longer than
    [N] is emitted as its first [N] characters followed by the ellipsis
    marker; when the content is not longer than [N], or the limit is
    unset or 0, the content is emitted in full, unaltered. *)
Lemma format_truncates_content (documents : list Document)
    (metadata_fields : option (list string))
    (max_content_length : option Z) (i : nat) (doc : Document) :
  documents !! i = Some doc ->
  format_chunk_results documents metadata_fields true max_content_length
  = join nl (output_parts documents metadata_fields true max_content_length)
  /\ exists shown,
       output_parts documents metadata_fields true max_content_length
         !! content_position i = Some shown
       /\ match max_content_length with
          | Some N =>
              (0 < N -> len (page_content doc) > N ->
               shown = slice_to N (page_content doc) +:+ "..."
               /\ len (slice_to N (page_content doc)) = N
               /\ truncated_to N (page_content doc) shown)
              /\ (N = 0 \/ len (page_content doc) <= N ->
                  shown = page_content doc)
          | None => shown = page_content doc
          end.
Proof.
  intros Hi. split; [apply format_is_join; by eapply lookup_not_nil |].
  exists (shown_content max_content_length (page_content doc)).
  split; [by apply output_parts_content |].
  destruct max_content_length as [N|]; [| reflexivity].
  split.
  - intros Hpos Hlong.
    assert (len (slice_to N (page_content doc)) = N) as Hlen
      by (apply len_slice_to; lia).
    rewrite shown_content_exceeds by lia.
    split; [reflexivity |]. split; [exact Hlen |].
    exists (slice_to N (page_content doc)).
    split; [reflexivity |]. split; [lia |].
    rewrite slice_to_nonneg by lia. apply prefix_substring_0.
  - apply shown_content_fits.
Qed.

Lemma format_truncates_content_witness :
  Sample.corpus !! 1%nat = Some Sample.admissions
  /\ exists shown,
       output_parts Sample.corpus None true (Some 12) !! content_position 1
       = Some shown
       /\ ((0 < 12 -> len (page_content Sample.admissions) > 12 ->
            shown = slice_to 12 (page_content Sample.admissions) +:+ "..."
            /\ len (slice_to 12 (page_content Sample.admissions)) = 12
            /\ truncated_to 12 (page_content Sample.admissions) shown)
           /\ (12 = 0 \/ len (page_content Sample.admissions) <= 12 ->
               shown = page_content Sample.admissions)).
Proof.
  split; [reflexivity |].
  apply (format_truncates_content Sample.corpus None (Some 12) 1
           Sample.admissions).
  reflexivity.
Defined.

Example format_truncates_sample :
  output_parts Sample.corpus None true (Some 12) !! content_position 1
  = Some "Applications...".
Proof. reflexivity. Qed.

(** C9: an empty list of fields is replaced by the defaults: the report
    is the parts joined by newlines, it is the report obtained when the
    default list is passed or the argument is left out, and in it every
    passage of a non-empty result is rendered with the lines of the seven
    default fields (those of them the passage has); a passage that has
    one of the seven fields does not get an empty metadata block. *)
Theorem format_empty_fields_uses_defaults (documents : list Document)
    (include_content : bool) (max_content_length : option Z)
    (i : nat) (doc : Document) :
  documents !! i = Some doc ->
  format_chunk_results documents (Some []) include_content max_content_length
  = join nl (output_parts documents (Some []) include_content
               max_content_length)
  /\ format_chunk_results documents (Some []) include_content
       max_content_length
     = format_chunk_results documents
         (Some ["page_type"; "primary_category"; "subcategory"; "title";
                "chunk_index"; "total_chunks"; "source"])
         include_content max_content_length
  /\ format_chunk_results documents (Some []) include_content
       max_content_length
     = format_chunk_results documents None include_content max_content_length
  /\ output_parts documents (Some []) include_content max_content_length
       !! metadata_position include_content i
     = Some (join nl
               (lines_of_present_fields
                  ["page_type"; "primary_category"; "subcategory"; "title";
                   "chunk_index"; "total_chunks"; "source"] doc))
  /\ ((exists field, field ∈ default_fields /\ is_Some (metadata doc !! field)) ->
      output_parts documents (Some []) include_content max_content_length
        !! metadata_position include_content i
      <> Some EmptyString).
Proof.
  intros Hi. split; [apply format_is_join; by eapply lookup_not_nil |].
  split; [reflexivity |]. split; [reflexivity |].
  rewrite (output_parts_metadata _ _ _ _ i doc Hi), metadata_lines_omap.
  split; [reflexivity |].
  intros Hpresent Hempty.
  apply (metadata_block_nonempty default_fields doc Hpresent).
  injection Hempty as Hempty. exact Hempty.
Qed.

Lemma format_empty_fields_uses_defaults_witness :
  Sample.corpus !! 0%nat = Some Sample.capstone
  /\ output_parts Sample.corpus (Some []) false None !! 3%nat
     = Some ("Page Type: course" +:+ nl +:+ "Title: Capstone" +:+ nl +:+
             "Chunk Index: 3" +:+ nl +:+
             "Source: https://example.edu/capstone")
  /\ output_parts Sample.corpus (Some []) false None !! 3%nat
     <> Some EmptyString
  /\ format_chunk_results Sample.corpus (Some []) false None
     = join nl (output_parts Sample.corpus (Some []) false None).
Proof.
  split; [reflexivity |]. split; [| split].
  3: { apply (format_empty_fields_uses_defaults Sample.corpus false None 0
                Sample.capstone).
       reflexivity. }
  - apply (format_empty_fields_uses_defaults Sample.corpus false None 0
             Sample.capstone).
    reflexivity.
  - apply (format_empty_fields_uses_defaults Sample.corpus false None 0
             Sample.capstone); [reflexivity |].
    exists "title". split; [| by eexists].
    unfold default_fields. do 3 apply list_elem_of_further.
    apply list_elem_of_here.
Defined.

(** ** Result lists *)

Section Ranking.

Variable score : Document -> Z.

#[local] Instance ranks_before_transitive : Transitive (ranks_before score).
Proof. intros a b c. unfold ranks_before. lia. Qed.

#[local] Instance ranks_before_total : Total (ranks_before score).
Proof. intros a b. unfold ranks_before. lia. Qed.

Lemma StronglySorted_take {A : Type} (R : relation A) (n : nat) (l : list A) :
  StronglySorted R l -> StronglySorted R (take n l).
Proof.
  intros Hl. rewrite <- (take_drop n l) in Hl.
  by apply StronglySorted_app_1_l in Hl.
Qed.

Lemma Sorted_take_ranked (n : nat) (docs : list Document) :
  Sorted (ranks_before score) docs ->
  Sorted (ranks_before score) (take n docs).
Proof.
  intros Hs. apply StronglySorted_Sorted, StronglySorted_take.
  apply Sorted_StronglySorted; [apply ranks_before_transitive | done].
Qed.

Lemma Sorted_non_increasing (docs : list Document) :
  Sorted (ranks_before score) docs -> non_increasing score docs.
Proof.
  intros Hs. apply Sorted_StronglySorted in Hs;
    [| apply ranks_before_transitive].
  induction Hs as [|d docs Hs IH Hall]; intros i j di dj Hij Hi Hj.
  - done.
  - destruct i as [|i], j as [|j]; simpl in *.
    + injection Hi as <-. injection Hj as <-. lia.
    + injection Hi as <-. rewrite Forall_forall in Hall.
      apply (Hall dj). by eapply list_elem_of_lookup_2.
    + lia.
    + apply (IH i j); [lia | done | done].
Qed.

End Ranking.

(** ** The brute-force index is well-formed *)

Lemma brute_force_valid (embeddings : OpenAIEmbeddings)
    (corpus : list Document) (score : string -> Document -> Z) :
  valid_index (BruteForce.index embeddings corpus score).
Proof.
  split; simpl; unfold BruteForce.search.
  - intros query k flt docs Hk [= <-]. rewrite length_take. lia.
  - intros query k flt docs Hk [= <-] doc Hdoc.
    apply elem_of_take in Hdoc as (i & Hdoc & _).
    apply list_elem_of_lookup_2 in Hdoc.
    rewrite merge_sort_Permutation in Hdoc.
    destruct flt as [d|]; simpl in Hdoc; [| done].
    by apply list_elem_of_filter in Hdoc as [_ ?].
  - intros query k flt docs Hk [= <-].
    apply Sorted_take_ranked, Sorted_merge_sort, ranks_before_total.
  - intros query k flt docs [= <-].
    apply Forall_forall. intros doc Hdoc.
    apply elem_of_take in Hdoc as (i & Hdoc & _).
    apply list_elem_of_lookup_2 in Hdoc.
    rewrite merge_sort_Permutation in Hdoc. simpl in Hdoc.
    by apply list_elem_of_filter in Hdoc as [? _].
Qed.

(** ** Module start-up *)

(** Without the credential the import fails with [ValueError]: nothing
    catches it, and the process stops there. *)
Lemma import_without_key (env : Env) (c : console) :
  getenv env "OPENAI_API_KEY" = None
  \/ getenv env "OPENAI_API_KEY" = Some EmptyString ->
  import_module env c
  = (Raised (Exn (Error ValueError)
                 "OpenAI API key not found in environment variables"), c).
Proof. unfold import_module. by intros [-> | ->]. Qed.

(** ** [search_similar_chunks] *)

(** The function performs one lookup, with the filter only when it is
    truthy, and post-processes its outcome. *)
Lemma search_after_lookup (vectorstore : option FAISS) (query : string)
    (k : Z) (filter_dict : option (gmap string filter_value)) (c : console) :
  search_similar_chunks vectorstore query k filter_dict c
  = after_lookup
      (call_similarity_search vectorstore query k (passed_filter filter_dict)) c.
Proof.
  unfold search_similar_chunks, passed_filter, after_lookup, try_except, bind.
  destruct (truthy filter_dict);
    by destruct (call_similarity_search _ _ _ _) as [docs|cls msg].
Qed.

Lemma passed_filter_nonempty (d : gmap string filter_value) :
  d <> ∅ -> passed_filter (Some d) = Some d.
Proof.
  intros Hd. unfold passed_filter, truthy.
  by rewrite bool_decide_eq_false_2.
Qed.

Lemma passed_filter_empty : passed_filter (Some ∅) = None.
Proof. reflexivity. Qed.

(** The call always comes back with a list: the one the index returned,
    or the empty list after an error. *)
Lemma search_returns (vectorstore : option FAISS) (query : string) (k : Z)
    (filter_dict : option (gmap string filter_value)) (c : console) :
  exists docs c',
    search_similar_chunks vectorstore query k filter_dict c = (Returned docs, c')
    /\ (call_similarity_search vectorstore query k (passed_filter filter_dict)
        = Reply docs
        \/ docs = []).
Proof.
  rewrite search_after_lookup.
  destruct (call_similarity_search _ _ _ _) as [docs|cls msg] eqn:Hlookup; simpl.
  - exists docs, c. by split; [| left].
  - eexists [], _. by split; [| right].
Qed.

(** C1: on a valid index, for every query, every positive [k] and every
    filter argument, the call returns a list of at most [k] passages,
    each of them a passage stored in the index (the very record, with its
    content and metadata), in order of non-increasing similarity score. *)
Theorem search_returns_top_k (vs : FAISS) (query : string) (k : Z)
    (filter_dict : option (gmap string filter_value)) (c : console) :
  valid_index vs ->
  0 < k ->
  exists docs c',
    search_similar_chunks (Some vs) query k filter_dict c = (Returned docs, c')
    /\ Z.of_nat (length docs) <= k
    /\ (forall doc, doc ∈ docs -> doc ∈ docstore vs)
    /\ non_increasing (similarity vs query) docs.
Proof.
  intros Hvalid Hk.
  destruct (search_returns (Some vs) query k filter_dict c)
    as (docs & c' & Hrun & [Hlookup | ->]); simpl in *.
  - exists docs, c'. split; [exact Hrun |].
    split; [by eapply (search_at_most_k vs Hvalid) |].
    split; [by eapply (search_from_docstore vs Hvalid) |].
    apply Sorted_non_increasing. by eapply (search_ranked vs Hvalid).
  - exists [], c'. split; [exact Hrun |].
    split; [simpl; lia |]. split; [by intros doc ?%elem_of_nil |].
    by intros i j di dj _ ?.
Qed.

Lemma search_returns_top_k_witness :
  valid_index Sample.db
  /\ 0 < 2
  /\ exists docs c',
       search_similar_chunks (Some Sample.db) "capstone" 2 None console0
       = (Returned docs, c')
       /\ Z.of_nat (length docs) <= 2
       /\ (forall doc, doc ∈ docs -> doc ∈ docstore Sample.db)
       /\ non_increasing (similarity Sample.db "capstone") docs.
Proof.
  split; [apply brute_force_valid |]. split; [lia |].
  apply (search_returns_top_k Sample.db "capstone" 2 None console0).
  - apply brute_force_valid.
  - lia.
Defined.

Example search_sample :
  search_similar_chunks (Some Sample.db) "capstone" 2 None console0
  = (Returned [Sample.capstone; Sample.admissions], console0).
Proof. vm_compute. reflexivity. Qed.

(** C2 as stated fails for a filter whose value is a list: the index
    reads the list as the admissible values, so the passages returned
    carry one of the listed values, which is not equal to the list. *)
Lemma list_filter_is_membership :
  ~ (exists docs c',
       search_similar_chunks (Some Sample.db) "faculty" 5
         (Some {["page_type" := AnyOf [VStr "course"; VStr "info"]]}) console0
       = (Returned docs, c')
       /\ forall doc field fv,
            doc ∈ docs ->
            ({["page_type" := AnyOf [VStr "course"; VStr "info"]]}
               : gmap string filter_value) !! field = Some fv ->
            equals_filter_value doc field fv).
Proof.
  intros (docs & c' & Hrun & Hall).
  vm_compute in Hrun. injection Hrun as <- _.
  destruct (Hall Sample.capstone "page_type"
              (AnyOf [VStr "course"; VStr "info"])) as (v & _ & Habs).
  - apply list_elem_of_here.
  - reflexivity.
  - discriminate Habs.
Qed.

(** C2, amended: the function does no filtering of its own, it hands a
    non-empty filter unchanged to the index and returns what the index
    returns; so on a valid index, when a filter is passed, the call
    returns a list in which every passage satisfies every entry of the
    filter as the index reads it: its metadata value is equal to the
    filter's value when that is a scalar, and is one of the listed values
    when that is a list. *)
Theorem search_respects_filter (vs : FAISS) (query : string) (k : Z)
    (filter_dict : gmap string filter_value) (c : console) :
  valid_index vs ->
  exists docs c',
    search_similar_chunks (Some vs) query k (Some filter_dict) c
    = (Returned docs, c')
    /\ (filter_dict <> ∅ ->
        search_similar_chunks (Some vs) query k (Some filter_dict) c
        = after_lookup (similarity_search vs query k (Some filter_dict)) c)
    /\ forall doc field fv,
         doc ∈ docs ->
         filter_dict !! field = Some fv ->
         match fv with
         | Exactly v => metadata doc !! field = Some v
         | AnyOf admissible =>
             exists v, metadata doc !! field = Some v /\ v ∈ admissible
         end.
Proof.
  intros Hvalid.
  destruct (search_returns (Some vs) query k (Some filter_dict) c)
    as (docs & c' & Hrun & Hdocs); simpl in *.
  exists docs, c'. split; [exact Hrun |]. split.
  - intros Hne. rewrite search_after_lookup.
    by rewrite passed_filter_nonempty.
  - intros doc field fv Hdoc Hfield.
    destruct Hdocs as [Hlookup | ->]; [| by apply elem_of_nil in Hdoc].
    destruct (decide (filter_dict = ∅)) as [-> | Hne].
    + by rewrite lookup_empty in Hfield.
    + rewrite passed_filter_nonempty in Hlookup by done.
      pose proof (search_filtered vs Hvalid _ _ _ _ Hlookup) as Hall.
      rewrite Forall_forall in Hall.
      pose proof (Hall doc Hdoc field fv Hfield) as Hentry.
      destruct fv as [v|admissible]; simpl in Hentry; [exact Hentry |].
      destruct (metadata doc !! field) as [v|]; [by exists v | done].
Qed.

Lemma search_respects_filter_witness :
  valid_index Sample.db
  /\ exists docs c',
       search_similar_chunks (Some Sample.db) "faculty" 5
         (Some {["page_type" := AnyOf [VStr "course"; VStr "info"]]}) console0
       = (Returned docs, c')
       /\ (({["page_type" := AnyOf [VStr "course"; VStr "info"]]}
              : gmap string filter_value) <> ∅ ->
           search_similar_chunks (Some Sample.db) "faculty" 5
             (Some {["page_type" := AnyOf [VStr "course"; VStr "info"]]})
             console0
           = after_lookup
               (similarity_search Sample.db "faculty" 5
                  (Some {["page_type" := AnyOf [VStr "course"; VStr "info"]]}))
               console0)
       /\ forall doc field fv,
            doc ∈ docs ->
            ({["page_type" := AnyOf [VStr "course"; VStr "info"]]}
               : gmap string filter_value) !! field = Some fv ->
            match fv with
            | Exactly v => metadata doc !! field = Some v
            | AnyOf admissible =>
                exists v, metadata doc !! field = Some v /\ v ∈ admissible
            end.
Proof.
  split; [apply brute_force_valid |].
  apply (search_respects_filter Sample.db "faculty" 5
           {["page_type" := AnyOf [VStr "course"; VStr "info"]]} console0).
  apply brute_force_valid.
Defined.

Example search_list_filtered_sample :
  search_similar_chunks (Some Sample.db) "faculty" 5
    (Some {["page_type" := AnyOf [VStr "course"; VStr "info"]]}) console0
  = (Returned [Sample.capstone; Sample.admissions; Sample.faculty], console0).
Proof. vm_compute. reflexivity. Qed.

Example search_filtered_sample :
  search_similar_chunks (Some Sample.db) "faculty" 5
    (Some {["page_type" := Exactly (VStr "info")]}) console0
  = (Returned [Sample.admissions; Sample.faculty], console0).
Proof. vm_compute. reflexivity. Qed.

(** C3: whatever the handle, the query, [k] and the filter, the call
    returns a list and raises nothing; when the lookup fails with an
    error, whatever its class, the error is caught, its message is
    printed and the list returned is empty; a lookup that returns is
    passed on without any output. *)
Theorem search_swallows_errors (vectorstore : option FAISS) (query : string)
    (k : Z) (filter_dict : option (gmap string filter_value)) (c : console) :
  (exists docs c',
     search_similar_chunks vectorstore query k filter_dict c
     = (Returned docs, c'))
  /\ (forall cls msg,
        call_similarity_search vectorstore query k (passed_filter filter_dict)
        = Fault cls msg ->
        search_similar_chunks vectorstore query k filter_dict c
        = (Returned [],
           Console (stdout c ++ ["Error during similarity search: " +:+ msg])
                   (stderr c)))
  /\ (forall docs,
        call_similarity_search vectorstore query k (passed_filter filter_dict)
        = Reply docs ->
        search_similar_chunks vectorstore query k filter_dict c
        = (Returned docs, c)).
Proof.
  split.
  - destruct (search_returns vectorstore query k filter_dict c)
      as (docs & c' & Hrun & _). by exists docs, c'.
  - rewrite search_after_lookup. split.
    + by intros cls msg ->.
    + by intros docs ->.
Qed.

Lemma search_swallows_errors_witness :
  search_similar_chunks (Some Sample.unreachable) "capstone" 3 None console0
  = (Returned [],
     Console ["Error during similarity search: Connection error."] [])
  /\ search_similar_chunks None "capstone" 3 None console0
     = (Returned [],
        Console ["Error during similarity search: 'NoneType' object has no attribute 'similarity_search'"] [])
  /\ search_similar_chunks (Some Sample.db) "capstone" 1 None console0
     = (Returned [Sample.capstone], console0).
Proof.
  split; [| split].
  - apply (proj1 (proj2 (search_swallows_errors (Some Sample.unreachable)
                           "capstone" 3 None console0))
             (OtherError "APIConnectionError") "Connection error.").
    reflexivity.
  - apply (proj1 (proj2 (search_swallows_errors None "capstone" 3 None
                           console0))
             AttributeError
             "'NoneType' object has no attribute 'similarity_search'").
    reflexivity.
  - apply (proj2 (proj2 (search_swallows_errors (Some Sample.db) "capstone" 1
                           None console0))).
    vm_compute. reflexivity.
Defined.

(** C10: with the empty mapping as filter the call is the call without
    filter: for every handle, query, [k] and console the two give the same
    result, and the lookup made is the one with no filter argument. *)
Theorem empty_filter_is_no_filter (vectorstore : option FAISS)
    (query : string) (k : Z) (c : console) :
  search_similar_chunks vectorstore query k (Some ∅) c
  = search_similar_chunks vectorstore query k None c
  /\ search_similar_chunks vectorstore query k (Some ∅) c
     = after_lookup (call_similarity_search vectorstore query k None) c.
Proof. split; [reflexivity | apply search_after_lookup]. Qed.

(** A non-empty filter, by contrast, reaches the index. *)
Example nonempty_filter_reaches_index :
  search_similar_chunks (Some Sample.db) "faculty" 5
    (Some {["page_type" := Exactly (VStr "info")]}) console0
  <> search_similar_chunks (Some Sample.db) "faculty" 5 None console0.
Proof. vm_compute. discriminate. Qed.

(** ** [load_vectordb] *)

Lemma sample_env_valid : valid_env Sample.env.
Proof. intros path embeddings flag Hmissing. simpl in *. rewrite Hmissing. eauto. Qed.

(** A load that goes through hands out the index and prints nothing. *)
Lemma load_succeeds (env : Env) (openai_api_key load_path model : string)
    (c : console) (embeddings : OpenAIEmbeddings) (vs : FAISS) :
  new_OpenAIEmbeddings env openai_api_key model = Reply embeddings ->
  FAISS_load_local env load_path embeddings true = Reply vs ->
  load_vectordb env openai_api_key load_path model c = (Returned (Some vs), c).
Proof.
  intros Hemb Hload.
  unfold load_vectordb, try_except, bind.
  rewrite Hemb. cbn [call ret]. by rewrite Hload.
Qed.

(** A load that fails hands out nothing and prints one line. *)
Lemma load_fails (env : Env) (openai_api_key load_path model : string)
    (c : console) (cls : error_class) (msg : string) :
  load_fails_with env openai_api_key load_path model cls msg ->
  load_vectordb env openai_api_key load_path model c
  = (Returned None,
     Console (stdout c ++ ["Error loading vector database: " +:+ msg])
             (stderr c)).
Proof.
  unfold load_vectordb, try_except, bind.
  intros [Hemb | (embeddings & Hemb & Hload)].
  - by rewrite Hemb.
  - rewrite Hemb. cbn [call ret]. by rewrite Hload.
Qed.

(** Every load either goes through or fails with some error. *)
Lemma load_cases (env : Env) (openai_api_key load_path model : string) :
  (exists embeddings vs,
     new_OpenAIEmbeddings env openai_api_key model = Reply embeddings
     /\ FAISS_load_local env load_path embeddings true = Reply vs)
  \/ exists cls msg, load_fails_with env openai_api_key load_path model cls msg.
Proof.
  unfold load_fails_with.
  destruct (new_OpenAIEmbeddings env openai_api_key model)
    as [embeddings|cls msg] eqn:Hemb; [| by eauto 6].
  destruct (FAISS_load_local env load_path embeddings true)
    as [vs|cls msg] eqn:Hload; [left | right]; eauto 8.
Qed.

(** C4 as stated fails on the stream: after a load from a path that does
    not exist the handle is absent, but the message is not on the
    standard error stream. *)
Lemma load_error_is_not_on_stderr :
  ~ (exists c',
       load_vectordb Sample.env "sk-test" "nowhere" default_model console0
       = (Returned None, c')
       /\ "Error loading vector database: could not open nowhere/index.faiss"
          ∈ stderr c').
Proof.
  intros (c' & Hrun & Hlogged).
  vm_compute in Hrun. injection Hrun as <-.
  simpl in Hlogged. by apply elem_of_nil in Hlogged.
Qed.

(** C4, amended: for every path and model name, the function returns and
    raises nothing, and leaves the standard error stream as it was; an
    error met while configuring the embedding function or reading the
    index is caught, its message is printed on the standard output
    stream, and the function returns the absent handle; in particular,
    with a deserializer that fails on missing paths, a path that does not
    exist yields the absent handle. *)
Theorem load_swallows_errors (env : Env)
    (openai_api_key load_path model : string) (c : console) :
  (exists handle c',
     load_vectordb env openai_api_key load_path model c = (Returned handle, c')
     /\ stderr c' = stderr c)
  /\ (forall cls msg,
        load_fails_with env openai_api_key load_path model cls msg ->
        load_vectordb env openai_api_key load_path model c
        = (Returned None,
           Console (stdout c ++ ["Error loading vector database: " +:+ msg])
                   (stderr c)))
  /\ (valid_env env ->
      path_exists env load_path = false ->
      exists line,
        load_vectordb env openai_api_key load_path model c
        = (Returned None, Console (stdout c ++ [line]) (stderr c))).
Proof.
  split; [| split].
  - destruct (load_cases env openai_api_key load_path model)
      as [(embeddings & vs & Hemb & Hload) | (cls & msg & Hfails)].
    + rewrite (load_succeeds _ _ _ _ c _ _ Hemb Hload). by eexists _, _.
    + rewrite (load_fails _ _ _ _ c _ _ Hfails). by eexists _, _.
  - intros cls msg. apply load_fails.
  - intros Hvalid Hmissing.
    destruct (load_cases env openai_api_key load_path model)
      as [(embeddings & vs & Hemb & Hload) | (cls & msg & Hfails)].
    + destruct (Hvalid load_path embeddings true Hmissing) as (cls & msg & Hno).
      congruence.
    + rewrite (load_fails _ _ _ _ c _ _ Hfails). eauto.
Qed.

Lemma load_swallows_errors_witness :
  load_vectordb Sample.env "sk-test" "nowhere" default_model console0
  = (Returned None,
     Console
       ["Error loading vector database: could not open nowhere/index.faiss"]
       [])
  /\ (valid_env Sample.env
      /\ path_exists Sample.env "nowhere" = false
      /\ exists line,
           load_vectordb Sample.env "sk-test" "nowhere" default_model console0
           = (Returned None, Console ([] ++ [line]) [])).
Proof.
  split; [| split; [apply sample_env_valid | split; [reflexivity |]]].
  - apply (proj1 (proj2 (load_swallows_errors Sample.env "sk-test" "nowhere"
                           default_model console0))
             RuntimeError "could not open nowhere/index.faiss").
    right. exists (mkOpenAIEmbeddings "sk-test" default_model).
    split; reflexivity.
  - apply (proj2 (proj2 (load_swallows_errors Sample.env "sk-test" "nowhere"
                           default_model console0))).
    + apply sample_env_valid.
    + reflexivity.
Defined.

Example load_sample :
  load_vectordb Sample.env "sk-test" "data/vectordb" default_model console0
  = (Returned (Some Sample.db), console0).
Proof. reflexivity. Qed.

(** ** [inspect_metadata] *)

(** The sample lookup is made outside of any handler: its error leaves
    the function, and what it returns is aggregated. *)
Lemma inspect_metadata_after_lookup (vectorstore : option FAISS)
    (sample_query : string) (sample_size : Z) (c : console) :
  inspect_metadata vectorstore sample_query sample_size c
  = match call_similarity_search vectorstore sample_query sample_size None with
    | Reply sample_docs =>
        (Returned (fold_left record_document sample_docs ∅), c)
    | Fault cls msg => (Raised (Exn (Error cls) msg), c)
    end.
Proof.
  unfold inspect_metadata, bind.
  by destruct (call_similarity_search _ _ _ _).
Qed.

Lemma recorded_empty (key : string) (v : value) : ~ recorded ∅ key v.
Proof. intros (values & Hlookup & _). by rewrite lookup_empty in Hlookup. Qed.

Lemma recorded_record_value (summary : gmap string (gset value))
    (item : string * value) (key : string) (v : value) :
  recorded (record_value summary item) key v
  <-> recorded summary key v \/ item = (key, v).
Proof.
  destruct item as [key' v']. unfold recorded, record_value.
  destruct (decide (key' = key)) as [-> | Hne].
  - destruct (summary !! key) as [values|] eqn:Hkey.
    + rewrite lookup_alter_eq, Hkey. simpl. split.
      * intros (values' & [= <-] & Hin).
        apply elem_of_union in Hin as [Hin | ->%elem_of_singleton]; eauto.
      * intros [(values' & [= <-] & Hin) | [= ->]];
          eexists; (split; [reflexivity |]); set_solver.
    + rewrite lookup_alter_eq, lookup_insert_eq. simpl. split.
      * intros (values' & [= <-] & Hin).
        apply elem_of_union in Hin as [Hin | ->%elem_of_singleton];
          [by apply not_elem_of_empty in Hin | by right].
      * intros [(values' & [=] & _) | [= ->]].
        eexists; (split; [reflexivity |]); set_solver.
  - assert (forall m : gmap string (gset value),
              alter (fun values => values ∪ {[v']}) key' m !! key = m !! key)
      as Halter by (intros m; by apply lookup_alter_ne).
    rewrite Halter.
    destruct (summary !! key') as [values|] eqn:Hkey'.
    + split; [by left | intros [? | [= ? _]]; [done | congruence]].
    + rewrite lookup_insert_ne by done.
      split; [by left | intros [? | [= ? _]]; [done | congruence]].
Qed.

Lemma recorded_fold_record_value (items : list (string * value))
    (summary : gmap string (gset value)) (key : string) (v : value) :
  recorded (fold_left record_value items summary) key v
  <-> recorded summary key v \/ (key, v) ∈ items.
Proof.
  revert summary. induction items as [|item items IH]; intros summary; simpl.
  - split; [by left | intros [? | ?%elem_of_nil]; done].
  - rewrite IH, recorded_record_value, elem_of_cons. split.
    + intros [[? | ->] | ?]; [by left | right; by left | right; by right].
    + intros [? | [-> | ?]]; [left; by left | left; by right | by right].
Qed.

Lemma recorded_record_document (summary : gmap string (gset value))
    (doc : Document) (key : string) (v : value) :
  recorded (record_document summary doc) key v
  <-> recorded summary key v \/ metadata doc !! key = Some v.
Proof.
  unfold record_document.
  by rewrite recorded_fold_record_value, elem_of_map_to_list.
Qed.

Lemma recorded_fold_record_document (docs : list Document)
    (summary : gmap string (gset value)) (key : string) (v : value) :
  recorded (fold_left record_document docs summary) key v
  <-> recorded summary key v \/ observed docs key v.
Proof.
  revert summary. induction docs as [|doc docs IH]; intros summary; simpl.
  - split; [by left | intros [? | (doc & ?%elem_of_nil & _)]; done].
  - rewrite IH, recorded_record_document. unfold observed. split.
    + intros [[? | ?] | (d & ? & ?)]; [by left | right | right].
      * exists doc. split; [left | done].
      * exists d. split; [by right | done].
    + intros [? | (d & [-> | ?]%elem_of_cons & ?)];
        [by left; left | by left; right | right; by exists d].
Qed.

(** When the sample lookup returns, the summary lists, for every field,
    exactly the values seen for it on the sampled passages. *)
Lemma inspect_metadata_aggregates (vectorstore : option FAISS)
    (sample_query : string) (sample_size : Z) (c : console)
    (sample_docs : list Document) :
  call_similarity_search vectorstore sample_query sample_size None
  = Reply sample_docs ->
  exists summary,
    inspect_metadata vectorstore sample_query sample_size c
    = (Returned summary, c)
    /\ forall key v, recorded summary key v <-> observed sample_docs key v.
Proof.
  intros Hlookup. rewrite inspect_metadata_after_lookup, Hlookup.
  eexists. split; [reflexivity |]. intros key v.
  rewrite recorded_fold_record_document.
  split; [intros [?%recorded_empty | ?]; done | by right].
Qed.

(** An error of the sample lookup is not caught. *)
Lemma inspect_metadata_propagates (vectorstore : option FAISS)
    (sample_query : string) (sample_size : Z) (c : console)
    (cls : error_class) (msg : string) :
  call_similarity_search vectorstore sample_query sample_size None
  = Fault cls msg ->
  inspect_metadata vectorstore sample_query sample_size c
  = (Raised (Exn (Error cls) msg), c).
Proof. intros Hlookup. by rewrite inspect_metadata_after_lookup, Hlookup. Qed.

(** C8, at an index whose lookups fail with a connection error: the
    error leaves [inspect_metadata] as an exception, where the policy asks
    for an empty result, while [search_similar_chunks] turns the very same
    failure into the empty list; the absent handle behaves alike. *)
Theorem inspect_metadata_raises_on_failed_lookup :
  inspect_metadata (Some Sample.unreachable) "example" 500 console0
  = (Raised (Exn (Error (OtherError "APIConnectionError")) "Connection error."),
     console0)
  /\ search_similar_chunks (Some Sample.unreachable) "example" 500 None console0
     = (Returned [],
        Console ["Error during similarity search: Connection error."] [])
  /\ inspect_metadata None "example" 500 console0
     = (Raised (Exn (Error AttributeError)
                    "'NoneType' object has no attribute 'similarity_search'"),
        console0).
Proof. repeat split. Qed.

Example inspect_metadata_sample :
  exists summary,
    inspect_metadata (Some Sample.db) "example" 500 console0
    = (Returned summary, console0)
    /\ summary !! "page_type" = Some {[VStr "course"; VStr "info"]}
    /\ summary !! "chunk_index" = Some {[VInt 3; VInt 0]}
    /\ summary !! "author" = Some {[VStr "staff"]}
    /\ summary !! "subcategory" = None.
Proof.
  eexists. split; [reflexivity |].
  repeat split; vm_compute; reflexivity.
Qed.

(** * Further properties of the module *)

(** ** The report as a whole *)

(** Two runs of the formatter that agree chunk by chunk agree on the
    report. *)
Lemma output_parts_ext (documents documents' : list Document)
    (fields fields' : list string) (inc inc' : bool) (m m' : option Z) :
  Forall2
    (fun doc doc' =>
       forall i, append_chunk fields inc m [] (i, doc)
                 = append_chunk fields' inc' m' [] (i, doc'))
    documents documents' ->
  fold_left (append_chunk fields inc m) (enumerate 1 documents)
    ["Found " +:+ pretty (length documents) +:+ " relevant chunks:" +:+ nl]
  = fold_left (append_chunk fields' inc' m') (enumerate 1 documents')
      ["Found " +:+ pretty (length documents') +:+ " relevant chunks:" +:+ nl].
Proof.
  intros Hagree. rewrite !fold_append_chunk.
  rewrite (Forall2_length _ _ _ Hagree). f_equal.
  generalize 1%nat.
  induction Hagree as [|doc doc' docs docs' Hdoc _ IH]; intros start.
  - reflexivity.
  - cbn [enumerate flat_map]. by rewrite Hdoc, IH.
Qed.

Lemma format_ext (documents documents' : list Document)
    (fields fields' : option (list string)) (inc inc' : bool)
    (m m' : option Z) :
  Forall2
    (fun doc doc' =>
       forall i, append_chunk (or_default_fields fields) inc m [] (i, doc)
                 = append_chunk (or_default_fields fields') inc' m' [] (i, doc'))
    documents documents' ->
  format_chunk_results documents fields inc m
  = format_chunk_results documents' fields' inc' m'.
Proof.
  intros Hagree. destruct Hagree as [|doc doc' docs docs' Hdoc Hdocs].
  - reflexivity.
  - unfold format_chunk_results, output_parts. f_equal.
    apply output_parts_ext. by constructor.
Qed.

Lemma metadata_lines_ext (fields : list string) (doc doc' : Document) :
  (forall field, field ∈ fields -> metadata doc !! field = metadata doc' !! field) ->
  metadata_lines fields doc = metadata_lines fields doc'.
Proof.
  intros Hsame. rewrite !metadata_lines_omap. unfold lines_of_present_fields.
  induction fields as [|field fields IH]; [reflexivity |].
  cbn [omap list_omap]. rewrite (Hsame field) by apply list_elem_of_here.
  rewrite IH; [reflexivity |].
  intros f Hf. apply Hsame. by apply list_elem_of_further.
Qed.

(** X1: the report is the parts joined by newlines; it opens with the
    count of the passages, and the passages are numbered from 1 in the
    order they were given, each number followed by a rule. *)
Theorem format_numbers_chunks_from_one (documents : list Document)
    (metadata_fields : option (list string)) (include_content : bool)
    (max_content_length : option Z) (i : nat) (doc : Document) :
  documents !! i = Some doc ->
  format_chunk_results documents metadata_fields include_content
    max_content_length
  = join nl (output_parts documents metadata_fields include_content
               max_content_length)
  /\ output_parts documents metadata_fields include_content max_content_length
       !! 0%nat
     = Some ("Found " +:+ pretty (length documents) +:+ " relevant chunks:" +:+ nl)
  /\ output_parts documents metadata_fields include_content max_content_length
       !! S (chunk_width include_content * i)
     = Some (nl +:+ "Chunk " +:+ pretty (S i) +:+ ":")
  /\ output_parts documents metadata_fields include_content max_content_length
       !! S (chunk_width include_content * i + 1)
     = Some "----------".
Proof.
  intros Hi. split; [apply format_is_join; by eapply lookup_not_nil |].
  split; [| split].
  - unfold output_parts. rewrite fold_append_chunk. reflexivity.
  - rewrite <- (Nat.add_0_r (chunk_width include_content * i)).
    rewrite (output_parts_lookup _ _ _ _ i 0 doc Hi)
      by (destruct include_content; simpl; lia).
    by destruct include_content.
  - rewrite (output_parts_lookup _ _ _ _ i 1 doc Hi)
      by (destruct include_content; simpl; lia).
    by destruct include_content.
Qed.

Lemma format_numbers_chunks_from_one_witness :
  Sample.corpus !! 2%nat = Some Sample.faculty
  /\ output_parts Sample.corpus None true None !! 15%nat
     = Some (nl +:+ "Chunk 3:")
  /\ format_chunk_results Sample.corpus None true None
     = join nl (output_parts Sample.corpus None true None).
Proof.
  split; [reflexivity |].
  split;
    apply (format_numbers_chunks_from_one Sample.corpus None true None 2
             Sample.faculty);
    reflexivity.
Defined.

(** X2: without [include_content] the report shows nothing of the text
    of the passages: it is the same for passages with the same metadata,
    whatever their content and whatever the length limit. *)
Theorem format_without_content_ignores_content
    (documents documents' : list Document)
    (metadata_fields : option (list string))
    (max_content_length max_content_length' : option Z) :
  Forall2 (fun doc doc' => metadata doc = metadata doc') documents documents' ->
  format_chunk_results documents metadata_fields false max_content_length
  = format_chunk_results documents' metadata_fields false max_content_length'.
Proof.
  intros Hsame. apply format_ext.
  eapply Forall2_impl; [exact Hsame |].
  intros doc doc' Hmeta i. unfold append_chunk.
  by rewrite (metadata_lines_ext _ doc doc') by (intros; by rewrite Hmeta).
Qed.

Lemma format_without_content_ignores_content_witness :
  Forall2 (fun doc doc' => metadata doc = metadata doc')
    [Sample.capstone] [mkDocument "redacted" (metadata Sample.capstone)]
  /\ format_chunk_results [Sample.capstone] None false (Some 5)
     = format_chunk_results [mkDocument "redacted" (metadata Sample.capstone)]
         None false None.
Proof.
  assert (Forall2 (fun doc doc' => metadata doc = metadata doc')
            [Sample.capstone] [mkDocument "redacted" (metadata Sample.capstone)])
    as Hsame by (repeat constructor).
  split; [exact Hsame |].
  exact (format_without_content_ignores_content _ _ None (Some 5) None Hsame).
Defined.

(** X3: the report shows only the listed fields: two passages with the
    same content that agree on every field of the list in force (the
    list given, or the defaults) are rendered alike, whatever else their
    metadata holds. *)
Theorem format_ignores_unlisted_fields (documents documents' : list Document)
    (metadata_fields : option (list string)) (include_content : bool)
    (max_content_length : option Z) :
  Forall2
    (fun doc doc' =>
       page_content doc = page_content doc'
       /\ forall field,
            field ∈ or_default_fields metadata_fields ->
            metadata doc !! field = metadata doc' !! field)
    documents documents' ->
  format_chunk_results documents metadata_fields include_content
    max_content_length
  = format_chunk_results documents' metadata_fields include_content
      max_content_length.
Proof.
  intros Hsame. apply format_ext.
  eapply Forall2_impl; [exact Hsame |].
  intros doc doc' [Hcontent Hfields] i. unfold append_chunk.
  by rewrite Hcontent, (metadata_lines_ext _ doc doc' Hfields).
Qed.

Lemma format_ignores_unlisted_fields_witness :
  format_chunk_results [Sample.faculty] None true None
  = format_chunk_results
      [mkDocument "Meet the instructors." {["page_type" := VStr "info"]}]
      None true None.
Proof.
  apply (format_ignores_unlisted_fields [Sample.faculty]
           [mkDocument "Meet the instructors." {["page_type" := VStr "info"]}]
           None true None).
  repeat constructor.
  intros field Hfield. cbn [or_default_fields] in Hfield.
  unfold default_fields in Hfield.
  repeat (apply elem_of_cons in Hfield as [-> | Hfield]; [reflexivity |]).
  by apply elem_of_nil in Hfield.
Defined.

(** ** The length limit *)


Lemma slice_to_negative (n : Z) (s : string) :
  n < 0 ->
  slice_to n s = String.substring 0 (Z.to_nat (Z.max 0 (len s + n))) s
  /\ len (slice_to n s) = Z.max 0 (len s + n).
Proof.
  intros Hn. unfold slice_to. destruct (Z.ltb_spec n 0); [| lia].
  split; [reflexivity |].
  unfold len at 1. rewrite length_substring_0; unfold len; lia.
Qed.

(** X4: a limit that no passage exceeds changes nothing: the report is
    the one obtained without limit. *)
Theorem format_limit_not_exceeded (documents : list Document)
    (metadata_fields : option (list string)) (include_content : bool)
    (N : Z) :
  Forall (fun doc => len (page_content doc) <= N) documents ->
  format_chunk_results documents metadata_fields include_content (Some N)
  = format_chunk_results documents metadata_fields include_content None.
Proof.
  intros Hfit. apply format_ext, Forall_Forall2_diag.
  eapply Forall_impl; [exact Hfit |].
  intros doc Hdoc i. unfold append_chunk.
  by rewrite shown_content_fits by (by right).
Qed.

Lemma format_limit_not_exceeded_witness :
  Forall (fun doc => len (page_content doc) <= 40) Sample.corpus
  /\ format_chunk_results Sample.corpus None true (Some 40)
     = format_chunk_results Sample.corpus None true None.
Proof.
  assert (Forall (fun doc => len (page_content doc) <= 40) Sample.corpus)
    as Hfit by (repeat constructor; vm_compute; discriminate).
  split; [exact Hfit |].
  exact (format_limit_not_exceeded Sample.corpus None true 40 Hfit).
Defined.



(** X6: a negative limit is not rejected: it is taken as a position
    counted from the end, so in the report, which is the parts joined by
    newlines, every passage, even one with no text, loses its last [-N]
    characters (all of them when it has fewer) and gets the three dots. *)
Theorem format_negative_limit_cuts_tail (documents : list Document)
    (metadata_fields : option (list string)) (N : Z) (i : nat) (doc : Document) :
  N < 0 ->
  documents !! i = Some doc ->
  format_chunk_results documents metadata_fields true (Some N)
  = join nl (output_parts documents metadata_fields true (Some N))
  /\ exists kept,
       output_parts documents metadata_fields true (Some N) !! content_position i
       = Some (kept +:+ "...")
       /\ String.prefix kept (page_content doc) = true
       /\ len kept = Z.max 0 (len (page_content doc) + N).
Proof.
  intros HN Hi. split; [apply format_is_join; by eapply lookup_not_nil |].
  exists (slice_to N (page_content doc)).
  rewrite (output_parts_content _ _ _ i doc Hi).
  assert (0 <= len (page_content doc)) by (unfold len; lia).
  rewrite shown_content_exceeds by lia.
  destruct (slice_to_negative N (page_content doc) HN) as [Hslice Hlen].
  split; [reflexivity |]. split; [| exact Hlen].
  rewrite Hslice. apply prefix_substring_0.
Qed.

Lemma format_negative_limit_cuts_tail_witness :
  -4 < 0
  /\ [mkDocument "abcdef" ∅; mkDocument EmptyString ∅] !! 1%nat
     = Some (mkDocument EmptyString ∅)
  /\ output_parts [mkDocument "abcdef" ∅; mkDocument EmptyString ∅] None true
       (Some (-4)) !! content_position 0
     = Some "ab..."
  /\ format_chunk_results [mkDocument "abcdef" ∅; mkDocument EmptyString ∅]
       None true (Some (-4))
     = join nl
         (output_parts [mkDocument "abcdef" ∅; mkDocument EmptyString ∅] None
            true (Some (-4)))
  /\ exists kept,
       output_parts [mkDocument "abcdef" ∅; mkDocument EmptyString ∅] None true
         (Some (-4)) !! content_position 1
       = Some (kept +:+ "...")
       /\ String.prefix kept EmptyString = true
       /\ len kept = Z.max 0 (len EmptyString + -4).
Proof.
  split; [lia |]. split; [reflexivity |]. split; [reflexivity |].
  apply (format_negative_limit_cuts_tail
           [mkDocument "abcdef" ∅; mkDocument EmptyString ∅] None (-4) 1
           (mkDocument EmptyString ∅)).
  - lia.
  - reflexivity.
Defined.

(** ** Field names as displayed *)

Lemma replace_underscore_clean (c : ascii) :
  (if Ascii.eqb c "_" then " "%char else c) <> "_"%char.
Proof. destruct (Ascii.eqb_spec c "_"); [discriminate | done]. Qed.

Lemma case_change_keeps_clean (c : ascii) (previous_is_cased : bool) :
  c <> "_"%char ->
  (if previous_is_cased then to_lower c else to_upper c) <> "_"%char.
Proof.
  destruct c as [[] [] [] [] [] [] [] []], previous_is_cased;
    intros Hc; vm_compute; congruence.
Qed.

Lemma title_from_spec (previous_is_cased : bool) (s : string) :
  String.length (title_from previous_is_cased s) = String.length s
  /\ ((forall n, String.get n s <> Some "_"%char) ->
      forall n, String.get n (title_from previous_is_cased s) <> Some "_"%char).
Proof.
  revert previous_is_cased. induction s as [|c s IH]; intros previous_is_cased.
  - done.
  - destruct (IH (is_cased c)) as [IHlen IHclean]. split.
    + simpl. by rewrite IHlen.
    + intros Hclean [|n]; cbn [title_from String.get].
      * intros [= Hc]. revert Hc. apply case_change_keeps_clean.
        intros ->. by apply (Hclean 0%nat).
      * apply IHclean. intros m. apply (Hclean (S m)).
Qed.

Lemma replace_char_spec (s : string) :
  String.length (replace_char "_" " " s) = String.length s
  /\ forall n, String.get n (replace_char "_" " " s) <> Some "_"%char.
Proof.
  induction s as [|c s [IHlen IHclean]]; [done |]. split.
  - simpl. by rewrite IHlen.
  - intros [|n]; cbn [replace_char String.get]; [| apply IHclean].
    intros [= Hc]. by apply (replace_underscore_clean c).
Qed.

Lemma case_change_keeps_ascii (c : ascii) (previous_is_cased : bool) :
  (nat_of_ascii c <? 128)%nat = true ->
  (nat_of_ascii (if previous_is_cased then to_lower c else to_upper c) <? 128)%nat
  = true.
Proof.
  destruct c as [[] [] [] [] [] [] [] []], previous_is_cased;
    intros Hc; vm_compute in *; congruence.
Qed.

Lemma title_from_ascii (previous_is_cased : bool) (s : string) :
  is_ascii_text s = true -> is_ascii_text (title_from previous_is_cased s) = true.
Proof.
  revert previous_is_cased. induction s as [|c s IH]; intros previous_is_cased;
    [done |].
  cbn [is_ascii_text title_from]. intros [Hc Hs]%andb_true_iff.
  apply andb_true_iff. split; [by apply case_change_keeps_ascii | by apply IH].
Qed.

Lemma replace_char_ascii (s : string) :
  is_ascii_text s = true -> is_ascii_text (replace_char "_" " " s) = true.
Proof.
  induction s as [|c s IH]; [done |].
  cbn [is_ascii_text replace_char]. intros [Hc Hs]%andb_true_iff.
  apply andb_true_iff. split; [| by apply IH].
  by destruct (Ascii.eqb c "_").
Qed.

(** X7: for a field name in ASCII, the name the field is displayed
    under is ASCII text with as many characters as the field name and no
    underscore in it. *)
Theorem display_field_has_no_underscore (field : string) :
  is_ascii_text field = true ->
  String.length (display_field field) = String.length field
  /\ (forall n, String.get n (display_field field) <> Some "_"%char)
  /\ is_ascii_text (display_field field) = true.
Proof.
  intros Hascii. unfold display_field, title.
  destruct (replace_char_spec field) as [Hlen Hclean].
  destruct (title_from_spec false (replace_char "_" " " field))
    as [Htlen Htclean].
  split; [by rewrite Htlen |]. split; [by apply Htclean |].
  by apply title_from_ascii, replace_char_ascii.
Qed.

Lemma display_field_has_no_underscore_witness :
  is_ascii_text "primary_category" = true
  /\ String.length (display_field "primary_category") = 16%nat
  /\ (forall n, String.get n (display_field "primary_category") <> Some "_"%char)
  /\ is_ascii_text (display_field "primary_category") = true.
Proof.
  split; [reflexivity |].
  apply (display_field_has_no_underscore "primary_category").
  reflexivity.
Defined.

Example display_field_samples :
  display_field "primary_category" = "Primary Category"
  /\ display_field "total_chunks" = "Total Chunks"
  /\ display_field "URL_of_page2x" = "Url Of Page2X".
Proof. repeat split. Qed.

(** ** The metadata summary *)

Lemma lookup_record_value_ne (summary : gmap string (gset value))
    (item : string * value) (key : string) :
  item.1 <> key -> record_value summary item !! key = summary !! key.
Proof.
  destruct item as [key' v']. simpl. intros Hne. unfold record_value.
  rewrite lookup_alter_ne by done.
  destruct (summary !! key'); [done | by rewrite lookup_insert_ne].
Qed.

Lemma inhabited_record_value (summary : gmap string (gset value))
    (item : string * value) :
  inhabited_fields summary -> inhabited_fields (record_value summary item).
Proof.
  intros Hinh key Hkey. destruct (decide (item.1 = key)) as [<- | Hne].
  - exists item.2. apply recorded_record_value. right. by destruct item.
  - rewrite lookup_record_value_ne in Hkey by done.
    destruct (Hinh key Hkey) as [v Hv]. exists v.
    apply recorded_record_value. by left.
Qed.

Lemma inhabited_fold_record_value (items : list (string * value))
    (summary : gmap string (gset value)) :
  inhabited_fields summary ->
  inhabited_fields (fold_left record_value items summary).
Proof.
  revert summary. induction items as [|item items IH]; intros summary Hinh;
    [done |].
  simpl. by apply IH, inhabited_record_value.
Qed.

Lemma inhabited_fold_record_document (docs : list Document)
    (summary : gmap string (gset value)) :
  inhabited_fields summary ->
  inhabited_fields (fold_left record_document docs summary).
Proof.
  revert summary. induction docs as [|doc docs IH]; intros summary Hinh;
    [done |].
  simpl. by apply IH, inhabited_fold_record_value.
Qed.

Lemma inhabited_empty : inhabited_fields ∅.
Proof. intros key [values Hkey]. by rewrite lookup_empty in Hkey. Qed.

(** The entry of a field in the summary of a sample. *)
Lemma summary_lookup (docs : list Document) (key : string) :
  match fold_left record_document docs ∅ !! key with
  | Some values =>
      (exists v, observed docs key v)
      /\ forall v, v ∈ values <-> observed docs key v
  | None => forall v, ~ observed docs key v
  end.
Proof.
  pose proof (recorded_fold_record_document docs ∅ key) as Hrec.
  pose proof (inhabited_fold_record_document docs ∅ inhabited_empty key) as Hinh.
  assert (forall v, recorded (fold_left record_document docs ∅) key v
                    <-> observed docs key v) as Hiff.
  { intros v. rewrite Hrec. split; [| by right].
    by intros [?%recorded_empty | ?]. }
  destruct (fold_left record_document docs ∅ !! key) as [values|] eqn:Hkey.
  - split.
    + destruct Hinh as [v Hv]; [done |]. exists v. by apply Hiff.
    + intros v. rewrite <- Hiff. unfold recorded. rewrite Hkey. split.
      * intros Hin. by exists values.
      * by intros (values' & [= <-] & Hin).
  - intros v Hobs. apply Hiff in Hobs as (values & Hsome & _).
    by rewrite Hkey in Hsome.
Qed.

(** X8: when the sample lookup returns, [inspect_metadata] returns a
    summary and prints nothing; a value is listed for a field in the
    summary exactly when some sampled passage carries that value for
    that field. *)
Theorem inspect_metadata_lists_observed_values (vectorstore : option FAISS)
    (sample_query : string) (sample_size : Z) (c : console)
    (sample_docs : list Document) :
  call_similarity_search vectorstore sample_query sample_size None
  = Reply sample_docs ->
  exists summary,
    inspect_metadata vectorstore sample_query sample_size c
    = (Returned summary, c)
    /\ forall key v,
         (exists values, summary !! key = Some values /\ v ∈ values)
         <-> exists doc, doc ∈ sample_docs /\ metadata doc !! key = Some v.
Proof.
  intros Hlookup. rewrite inspect_metadata_after_lookup, Hlookup.
  eexists. split; [reflexivity |]. intros key v.
  fold (recorded (fold_left record_document sample_docs ∅) key v).
  rewrite recorded_fold_record_document.
  split; [intros [?%recorded_empty | ?]; done | by right].
Qed.

Lemma inspect_metadata_lists_observed_values_witness :
  call_similarity_search (Some Sample.db) "example" 2 None
  = Reply [Sample.capstone; Sample.admissions]
  /\ exists summary,
       inspect_metadata (Some Sample.db) "example" 2 console0
       = (Returned summary, console0)
       /\ forall key v,
            (exists values, summary !! key = Some values /\ v ∈ values)
            <-> exists doc,
                  doc ∈ [Sample.capstone; Sample.admissions]
                  /\ metadata doc !! key = Some v.
Proof.
  split; [vm_compute; reflexivity |].
  apply (inspect_metadata_lists_observed_values (Some Sample.db) "example" 2
           console0 [Sample.capstone; Sample.admissions]).
  vm_compute. reflexivity.
Defined.

(** X9: the fields of the summary are exactly the fields met on the
    sampled passages, and none of them comes with an empty set of
    values; in particular an empty sample gives the empty summary. *)
Theorem inspect_metadata_fields (vectorstore : option FAISS)
    (sample_query : string) (sample_size : Z) (c : console)
    (sample_docs : list Document) :
  call_similarity_search vectorstore sample_query sample_size None
  = Reply sample_docs ->
  exists summary,
    inspect_metadata vectorstore sample_query sample_size c
    = (Returned summary, c)
    /\ (forall key,
          is_Some (summary !! key)
          <-> exists doc, doc ∈ sample_docs /\ is_Some (metadata doc !! key))
    /\ (forall key values, summary !! key = Some values -> values <> ∅)
    /\ (sample_docs = [] -> summary = ∅).
Proof.
  intros Hlookup. rewrite inspect_metadata_after_lookup, Hlookup.
  eexists. split; [reflexivity |]. split; [| split].
  - intros key. pose proof (summary_lookup sample_docs key) as Hkey.
    destruct (fold_left record_document sample_docs ∅ !! key) as [values|].
    + destruct Hkey as [(v & doc & Hdoc & Hv) _]. split; [| done].
      intros _. exists doc. by rewrite Hv.
    + split; [by intros [? ?] |].
      intros (doc & Hdoc & v & Hv). destruct (Hkey v). by exists doc.
  - intros key values Hsome.
    pose proof (summary_lookup sample_docs key) as Hkey.
    rewrite Hsome in Hkey. destruct Hkey as [[v Hv] Hiff].
    apply Hiff in Hv. intros ->. by apply not_elem_of_empty in Hv.
  - by intros ->.
Qed.

Lemma inspect_metadata_fields_witness :
  call_similarity_search (Some Sample.db) "example" 2
    None
  = Reply [Sample.capstone; Sample.admissions]
  /\ exists summary,
       inspect_metadata (Some Sample.db) "example" 2 console0
       = (Returned summary, console0)
       /\ (forall key,
             is_Some (summary !! key)
             <-> exists doc,
                   doc ∈ [Sample.capstone; Sample.admissions]
                   /\ is_Some (metadata doc !! key))
       /\ (forall key values, summary !! key = Some values -> values <> ∅)
       /\ ([Sample.capstone; Sample.admissions] = [] -> summary = ∅).
Proof.
  split; [vm_compute; reflexivity |].
  apply (inspect_metadata_fields (Some Sample.db) "example" 2 console0
           [Sample.capstone; Sample.admissions]).
  vm_compute. reflexivity.
Defined.

(** X10: the summary depends on which passages were sampled, not on the
    order the index returned them in nor on how often it returned each:
    two samples with the same passages give the same summary. *)
Theorem inspect_metadata_order_independent (vectorstore vectorstore' : option FAISS)
    (sample_query sample_query' : string) (sample_size sample_size' : Z)
    (c : console) (sample_docs sample_docs' : list Document) :
  call_similarity_search vectorstore sample_query sample_size None
  = Reply sample_docs ->
  call_similarity_search vectorstore' sample_query' sample_size' None
  = Reply sample_docs' ->
  same_passages sample_docs sample_docs' ->
  inspect_metadata vectorstore sample_query sample_size c
  = inspect_metadata vectorstore' sample_query' sample_size' c.
Proof.
  intros Hlookup Hlookup' Hsame.
  rewrite !inspect_metadata_after_lookup, Hlookup, Hlookup'.
  f_equal. f_equal. apply map_eq. intros key.
  assert (forall v, observed sample_docs key v <-> observed sample_docs' key v)
    as Hobs.
  { intros v. unfold observed. split; intros (doc & Hdoc & Hv); exists doc;
      (split; [by apply Hsame | done]). }
  pose proof (summary_lookup sample_docs key) as H1.
  pose proof (summary_lookup sample_docs' key) as H2.
  destruct (fold_left record_document sample_docs ∅ !! key) as [values|],
    (fold_left record_document sample_docs' ∅ !! key) as [values'|].
  - f_equal. apply set_eq. intros v.
    destruct H1 as [_ ->], H2 as [_ ->]. apply Hobs.
  - destruct H1 as [[v Hv] _]. by destruct (H2 v); apply Hobs.
  - destruct H2 as [[v Hv] _]. by destruct (H1 v); apply Hobs.
  - reflexivity.
Qed.

Lemma inspect_metadata_order_independent_witness :
  inspect_metadata
    (Some (BruteForce.index Sample.embeddings
             [Sample.admissions; Sample.capstone; Sample.admissions]
             (fun _ doc => - len (page_content doc))))
    "a" 3 console0
  = inspect_metadata (Some Sample.db) "example" 2 console0.
Proof.
  apply (inspect_metadata_order_independent _ _ "a" "example" 3 2 console0
           [Sample.admissions; Sample.admissions; Sample.capstone]
           [Sample.capstone; Sample.admissions]).
  - vm_compute. reflexivity.
  - vm_compute. reflexivity.
  - intros doc. rewrite !elem_of_cons, !elem_of_nil. tauto.
Defined.

(** ** Start-up and the callers *)

(** Importing the module succeeds exactly when the credential is set to
    a non-empty string, and then the module keeps that string; a missing
    credential and an empty one both end the import with [ValueError];
    nothing is printed either way. *)
Lemma import_needs_nonempty_key (env : Env) (c : console) :
  (exists key,
     getenv env "OPENAI_API_KEY" = Some key /\ key <> EmptyString
     /\ import_module env c = (Returned key, c))
  \/ ((getenv env "OPENAI_API_KEY" = None
       \/ getenv env "OPENAI_API_KEY" = Some EmptyString)
      /\ import_module env c
         = (Raised (Exn (Error ValueError)
                        "OpenAI API key not found in environment variables"),
            c)).
Proof.
  unfold import_module.
  destruct (getenv env "OPENAI_API_KEY") as [key|]; [| right; by split; [left |]].
  destruct (String.eqb_spec key EmptyString) as [-> | Hne].
  - right. by split; [right |].
  - left. by exists key.
Qed.

(** X12: when the search fails, the report made from its result is the
    "No results found." sentence: the failure reaches the reader only
    through the line printed by the search. *)
Theorem failed_search_formats_as_no_results (vectorstore : option FAISS)
    (query : string) (k : Z) (filter_dict : option (gmap string filter_value))
    (metadata_fields : option (list string)) (include_content : bool)
    (max_content_length : option Z) (c : console)
    (cls : error_class) (msg : string) :
  call_similarity_search vectorstore query k (passed_filter filter_dict)
  = Fault cls msg ->
  (chunks <- search_similar_chunks vectorstore query k filter_dict ;;
   ret (format_chunk_results chunks metadata_fields include_content
          max_content_length)) c
  = (Returned "No results found.",
     Console (stdout c ++ ["Error during similarity search: " +:+ msg])
             (stderr c)).
Proof.
  intros Hlookup. unfold bind. by rewrite search_after_lookup, Hlookup.
Qed.

Lemma failed_search_formats_as_no_results_witness :
  (chunks <- search_similar_chunks (Some Sample.unreachable) "capstone" 5 None ;;
   ret (format_chunk_results chunks None true (Some 80))) console0
  = (Returned "No results found.",
     Console ["Error during similarity search: Connection error."] []).
Proof.
  apply (failed_search_formats_as_no_results (Some Sample.unreachable)
           "capstone" 5 None None true (Some 80) console0
           (OtherError "APIConnectionError") "Connection error.").
  reflexivity.
Defined.

(** X13: a load that goes through prints nothing and hands out the index
    read with the embedding function built from the module credential
    and the model; searching with the handle is searching that index. *)
Theorem load_then_search (env : Env) (openai_api_key load_path model : string)
    (embeddings : OpenAIEmbeddings) (vs : FAISS)
    (query : string) (k : Z) (filter_dict : option (gmap string filter_value))
    (c : console) :
  new_OpenAIEmbeddings env openai_api_key model = Reply embeddings ->
  FAISS_load_local env load_path embeddings true = Reply vs ->
  load_vectordb env openai_api_key load_path model c = (Returned (Some vs), c)
  /\ (vectorstore <- load_vectordb env openai_api_key load_path model ;;
      search_similar_chunks vectorstore query k filter_dict) c
     = search_similar_chunks (Some vs) query k filter_dict c.
Proof.
  intros Hemb Hload.
  pose proof (load_succeeds env openai_api_key load_path model c embeddings vs
                Hemb Hload) as Hrun.
  split; [exact Hrun |]. unfold bind. by rewrite Hrun.
Qed.

Lemma load_then_search_witness :
  (vectorstore <-
     load_vectordb Sample.env "sk-test" "data/vectordb" default_model ;;
   search_similar_chunks vectorstore "capstone" 1 None) console0
  = search_similar_chunks (Some Sample.db) "capstone" 1 None console0.
Proof.
  apply (load_then_search Sample.env "sk-test" "data/vectordb" default_model
           Sample.embeddings Sample.db "capstone" 1 None console0);
    reflexivity.
Defined.

(** X14: a search made with the handle of a failed load does not raise:
    it returns the empty list, after the line of the failed load and a
    line for the attribute missing on [None]. *)
Theorem failed_load_then_search (env : Env)
    (openai_api_key load_path model : string)
    (query : string) (k : Z) (filter_dict : option (gmap string filter_value))
    (c : console) (cls : error_class) (msg : string) :
  load_fails_with env openai_api_key load_path model cls msg ->
  (vectorstore <- load_vectordb env openai_api_key load_path model ;;
   search_similar_chunks vectorstore query k filter_dict) c
  = (Returned [],
     Console
       (stdout c
        ++ ["Error loading vector database: " +:+ msg;
            "Error during similarity search: 'NoneType' object has no attribute 'similarity_search'"])
       (stderr c)).
Proof.
  intros Hfails. unfold bind.
  rewrite (load_fails _ _ _ _ c _ _ Hfails), search_after_lookup.
  cbn [call_similarity_search after_lookup stdout stderr].
  by rewrite <- app_assoc.
Qed.

Lemma failed_load_then_search_witness :
  load_fails_with Sample.env "sk-test" "nowhere" default_model RuntimeError
    "could not open nowhere/index.faiss"
  /\ (vectorstore <- load_vectordb Sample.env "sk-test" "nowhere" default_model ;;
      search_similar_chunks vectorstore "capstone" 5 None) console0
     = (Returned [],
        Console
          ["Error loading vector database: could not open nowhere/index.faiss";
           "Error during similarity search: 'NoneType' object has no attribute 'similarity_search'"]
          []).
Proof.
  assert (load_fails_with Sample.env "sk-test" "nowhere" default_model
            RuntimeError "could not open nowhere/index.faiss") as Hfails.
  { right. exists (mkOpenAIEmbeddings "sk-test" default_model).
    split; reflexivity. }
  split; [exact Hfails |].
  exact (failed_load_then_search Sample.env "sk-test" "nowhere" default_model
           "capstone" 5 None console0 RuntimeError
           "could not open nowhere/index.faiss" Hfails).
Defined.

(** ** [setup] *)

Section Setup.

Context {Chain : Type}.
Variables (env : Env) (vector_search_key base_dir : string)
          (create_chat_chain : string -> reply Chain).

Lemma setup_with_key (key : string) (c : console) :
  getenv env "OPENAI_API_KEY" = Some key ->
  key <> EmptyString ->
  MainStreamlit.setup env vector_search_key base_dir create_chat_chain c
  = (vectordb <-
       load_vectordb env vector_search_key
         (OsPath.join base_dir ["data"; "data"; "vectordb"]) default_model ;;
     chain <- call (create_chat_chain key) ;;
     ret (vectordb, chain)) c.
Proof.
  intros Hkey Hne. unfold MainStreamlit.setup. rewrite Hkey.
  by destruct (String.eqb_spec key EmptyString).
Qed.

End Setup.

(** X15: [setup] does not look at the handle it gets: when the load
    fails and the chat chain can be built, it returns the absent handle
    next to the chain, the only trace being the line printed by the
    loader. *)
Theorem setup_returns_absent_handle {Chain : Type} (env : Env)
    (vector_search_key base_dir key : string)
    (create_chat_chain : string -> reply Chain) (chain : Chain)
    (c : console) (cls : error_class) (msg : string) :
  getenv env "OPENAI_API_KEY" = Some key ->
  key <> EmptyString ->
  load_fails_with env vector_search_key
    (OsPath.join base_dir ["data"; "data"; "vectordb"]) default_model cls msg ->
  create_chat_chain key = Reply chain ->
  MainStreamlit.setup env vector_search_key base_dir create_chat_chain c
  = (Returned (None, chain),
     Console (stdout c ++ ["Error loading vector database: " +:+ msg])
             (stderr c)).
Proof.
  intros Hkey Hne Hfails Hchain.
  rewrite (setup_with_key env vector_search_key base_dir create_chat_chain
             key c Hkey Hne).
  unfold bind. rewrite (load_fails _ _ _ _ c _ _ Hfails), Hchain. reflexivity.
Qed.

Lemma setup_returns_absent_handle_witness :
  MainStreamlit.setup Sample.env "sk-test" "/srv/app"
    (fun key => Reply (String.length key)) console0
  = (Returned (None, 7%nat),
     Console
       ["Error loading vector database: could not open /srv/app/data/data/vectordb/index.faiss"]
       []).
Proof.
  apply (setup_returns_absent_handle Sample.env "sk-test" "/srv/app" "sk-test"
           (fun key => Reply (String.length key)) 7%nat console0 RuntimeError
           "could not open /srv/app/data/data/vectordb/index.faiss").
  - reflexivity.
  - discriminate.
  - right. exists (mkOpenAIEmbeddings "sk-test" default_model).
    split; reflexivity.
  - reflexivity.
Defined.

(** X16: once [vector_search] has been imported, which [main_streamlit]
    does first, the credential check of [setup] cannot fail: [setup]
    reads the same credential the module kept, loads the index and
    builds the chain with it, and raises only if building the chain
    does. *)
Theorem setup_after_import {Chain : Type} (env : Env) (base_dir key : string)
    (create_chat_chain : string -> reply Chain) (c0 c1 c : console) :
  import_module env c0 = (Returned key, c1) ->
  MainStreamlit.setup env key base_dir create_chat_chain c
  = (vectordb <-
       load_vectordb env key
         (OsPath.join base_dir ["data"; "data"; "vectordb"]) default_model ;;
     chain <- call (create_chat_chain key) ;;
     ret (vectordb, chain)) c
  /\ forall e c',
       MainStreamlit.setup env key base_dir create_chat_chain c = (Raised e, c') ->
       exists cls msg,
         create_chat_chain key = Fault cls msg /\ e = Exn (Error cls) msg.
Proof.
  intros Himport.
  assert (getenv env "OPENAI_API_KEY" = Some key /\ key <> EmptyString)
    as [Hkey Hne].
  { unfold import_module in Himport.
    destruct (getenv env "OPENAI_API_KEY") as [key'|]; [| discriminate].
    destruct (String.eqb_spec key' EmptyString); [discriminate |].
    injection Himport as -> _. by split. }
  rewrite (setup_with_key env key base_dir create_chat_chain key c Hkey Hne).
  split; [reflexivity |].
  intros e c'. unfold bind.
  destruct (load_cases env key
              (OsPath.join base_dir ["data"; "data"; "vectordb"]) default_model)
    as [(embeddings & vs & Hemb & Hload) | (cls & msg & Hfails)].
  - rewrite (load_succeeds _ _ _ _ c _ _ Hemb Hload).
    destruct (create_chat_chain key) as [chain|cls msg]; [discriminate |].
    intros [= <- _]. by exists cls, msg.
  - rewrite (load_fails _ _ _ _ c _ _ Hfails).
    destruct (create_chat_chain key) as [chain|cls' msg']; [discriminate |].
    intros [= <- _]. by exists cls', msg'.
Qed.

Lemma setup_after_import_witness :
  import_module Sample.env console0 = (Returned "sk-test", console0)
  /\ MainStreamlit.setup Sample.env "sk-test" "data/.."
       (fun key => Reply (String.length key)) console0
     = (vectordb <-
          load_vectordb Sample.env "sk-test"
            (OsPath.join "data/.." ["data"; "data"; "vectordb"]) default_model ;;
        chain <- call (Reply (String.length "sk-test")) ;;
        ret (vectordb, chain)) console0.
Proof.
  split; [reflexivity |].
  apply (setup_after_import Sample.env "data/.." "sk-test"
           (fun key => Reply (String.length key)) console0 console0 console0).
  reflexivity.
Defined.

(** Without the credential, or with an empty one, [setup] raises
    [ValueError] at once: nothing is loaded, built or printed. *)
Lemma setup_without_key {Chain : Type} (env : Env)
    (vector_search_key base_dir : string)
    (create_chat_chain : string -> reply Chain) (c : console) :
  getenv env "OPENAI_API_KEY" = None
  \/ getenv env "OPENAI_API_KEY" = Some EmptyString ->
  MainStreamlit.setup env vector_search_key base_dir create_chat_chain c
  = (Raised (Exn (Error ValueError)
                 "OpenAI API key not found in environment variables"), c).
Proof. unfold MainStreamlit.setup. by intros [-> | ->]. Qed.

Lemma setup_without_key_witness :
  MainStreamlit.setup
    (mkEnv (fun _ => None) (new_OpenAIEmbeddings Sample.env)
       (path_exists Sample.env) (FAISS_load_local Sample.env))
    "sk-test" "/srv/app" (fun key => Reply (String.length key)) console0
  = (Raised (Exn (Error ValueError)
                 "OpenAI API key not found in environment variables"),
     console0).
Proof.
  apply (setup_without_key
           (mkEnv (fun _ => None) (new_OpenAIEmbeddings Sample.env)
              (path_exists Sample.env) (FAISS_load_local Sample.env))
           "sk-test" "/srv/app" (fun key => Reply (String.length key)) console0).
  by left.
Defined.
